(** * Zookeeper's Challenge: a shallow embedding of [zookeeper_challenge.py]

    The script reads free-text arrival records, derives an identifier, a
    birth date and a name for every animal and writes a report grouped by
    habitat.  This file embeds its four functions ([gen_birth_date],
    [gen_unique_id], [load_names], [process_zoo_data]) together with the
    Python string and dictionary primitives they use, and proves the
    properties stated in the specification.

    Modelling conventions.
    - A Python [str] is a [string] of ASCII code points.  The case mappings
      ([lower], [capitalize]) and the white-space class are those of Python
      restricted to ASCII; characters outside ASCII are left alone by the
      model.
    - A Python [int] is a [Z].
    - [species_counts] and the name pools are [gmap]s; [habitats], whose
      iteration order is observable, is an insertion-ordered association
      list.
    - Exceptions are values of [exn]; a computation that may raise returns a
      [result].
    - The file system is a flat finite map from paths to contents: a path in
      the map is a text file that can be read, a path outside it does not
      exist.  Opening a path for writing may fail; the world records the
      paths for which it does, with the exception raised, and the empty
      path can never be opened.
    - [print] appends to a list of messages, and [date.today()] is one date
      fixed for the whole run.
    - [int] applies the default limit of 4300 digits of the interpreter;
      [str] is modelled without it. *)

From Stdlib Require Import Ascii String ZArith Lia.
From stdpp Require Import base option list gmap strings.

Local Open Scope Z_scope.

(** ** Python strings *)

Module PyStr.

Definition newline : ascii := "010"%char.

Definition is_upper (c : ascii) : bool :=
  let n := N_of_ascii c in (N.leb 65 n && N.leb n 90)%bool.

Definition is_lower (c : ascii) : bool :=
  let n := N_of_ascii c in (N.leb 97 n && N.leb n 122)%bool.

Definition char_lower (c : ascii) : ascii :=
  if is_upper c then ascii_of_N (N_of_ascii c + 32) else c.

Definition char_upper (c : ascii) : ascii :=
  if is_lower c then ascii_of_N (N_of_ascii c - 32) else c.

(** [str.isspace] on ASCII: TAB, LF, VT, FF, CR, FS, GS, RS, US, SPACE. *)
Definition is_space (c : ascii) : bool :=
  let n := N_of_ascii c in
  ((N.leb 9 n && N.leb n 13) || (N.leb 28 n && N.leb n 32))%bool.

Definition is_digit (c : ascii) : bool :=
  let n := N_of_ascii c in (N.leb 48 n && N.leb n 57)%bool.

(** [s.lower()] *)
Fixpoint lower (s : string) : string :=
  match s with
  | EmptyString => EmptyString
  | String c r => String (char_lower c) (lower r)
  end.

(** [s.capitalize()]: first character upper-cased, the rest lower-cased. *)
Definition capitalize (s : string) : string :=
  match s with
  | EmptyString => EmptyString
  | String c r => String (char_upper c) (lower r)
  end.

(** [s[:n]] *)
Fixpoint slice_to (n : nat) (s : string) : string :=
  match n, s with
  | S k, String c r => String c (slice_to k r)
  | _, _ => EmptyString
  end.

(** [s.lstrip()], [s.rstrip()], [s.strip()] *)
Fixpoint lstrip (s : string) : string :=
  match s with
  | EmptyString => EmptyString
  | String c r => if is_space c then lstrip r else s
  end.

Fixpoint rstrip (s : string) : string :=
  match s with
  | EmptyString => EmptyString
  | String c r =>
      match rstrip r with
      | EmptyString => if is_space c then EmptyString else String c EmptyString
      | r' => String c r'
      end
  end.

Definition strip (s : string) : string := rstrip (lstrip s).

(** [s.split(sep)] for a one-character separator: never empty. *)
Fixpoint split_on (sep : ascii) (s : string) : list string :=
  match s with
  | EmptyString => [EmptyString]
  | String c r =>
      if Ascii.eqb c sep then EmptyString :: split_on sep r
      else match split_on sep r with
           | p :: ps => String c p :: ps
           | [] => [String c EmptyString]
           end
  end.

(** [s.split()]: maximal runs of non-white-space characters. *)
Fixpoint split_ws_go (cur : option string) (s : string) : list string :=
  match s with
  | EmptyString => option_list (String.rev <$> cur)
  | String c r =>
      if is_space c
      then option_list (String.rev <$> cur) ++ split_ws_go None r
      else split_ws_go (Some (String c (default EmptyString cur))) r
  end.

Definition split_ws (s : string) : list string := split_ws_go None s.

(** [s.endswith(suf)] *)
Fixpoint endswith (s suf : string) : bool :=
  if String.eqb s suf then true
  else match s with
       | EmptyString => false
       | String _ r => endswith r suf
       end.

(** [sub in s] *)
Fixpoint contains (sub s : string) : bool :=
  if String.prefix sub s then true
  else match s with
       | EmptyString => false
       | String _ r => contains sub r
       end.

(** [s.replace(old, new)] for a non-empty [old]: occurrences are replaced
    left to right without overlap; [skip] counts the characters of the
    occurrence being replaced that are still to be dropped. *)
Fixpoint replace_from (old new : string) (skip : nat) (s : string) : string :=
  match s with
  | EmptyString => EmptyString
  | String c r =>
      match skip with
      | S k => replace_from old new k r
      | O =>
          if String.prefix old s
          then new +:+ replace_from old new (Nat.pred (String.length old)) r
          else String c (replace_from old new O r)
      end
  end.

Definition replace (old new s : string) : string := replace_from old new O s.

(** [sep.join(l)] *)
Fixpoint join (sep : string) (l : list string) : string :=
  match l with
  | [] => EmptyString
  | [x] => x
  | x :: r => x +:+ sep +:+ join sep r
  end.

(** ['0' * n] *)
Fixpoint zeros (n : nat) : string :=
  match n with
  | O => EmptyString
  | S k => String "0"%char (zeros k)
  end.

(** [s.zfill(width)]: pads on the left with zeros, after a leading sign. *)
Definition zfill (width : nat) (s : string) : string :=
  if (width <=? String.length s)%nat then s
  else
    let pad := zeros (width - String.length s) in
    match s with
    | String c r =>
        if (Ascii.eqb c "+"%char || Ascii.eqb c "-"%char)%bool
        then String c (pad +:+ r)
        else pad +:+ s
    | EmptyString => pad
    end.

(** Concatenation of a list of strings (a sequence of [write] calls). *)
Fixpoint concat (l : list string) : string :=
  match l with
  | [] => EmptyString
  | x :: r => x +:+ concat r
  end.


End PyStr.

(** ** Python integers *)

Module PyInt.

Definition digit_char (d : Z) : ascii := ascii_of_N (48 + Z.to_N d).

Definition digit_val (c : ascii) : Z := Z.of_N (N_of_ascii c) - 48.

(** Decimal digits of a non-negative integer, most significant first. *)
Fixpoint digits (fuel : nat) (n : Z) : string :=
  match fuel with
  | O => EmptyString
  | S f =>
      if n <? 10 then String (digit_char n) EmptyString
      else digits f (n / 10) +:+ String (digit_char (n mod 10)) EmptyString
  end.

(** A non-negative [n] has at most [log2 n + 1] decimal digits. *)
Definition digits_fuel (n : Z) : nat := S (Z.to_nat (Z.log2 n)).

(** [str(n)] *)
Definition str (n : Z) : string :=
  if n <? 0 then String "-"%char (digits (digits_fuel (- n)) (- n))
  else digits (digits_fuel n) n.

(** The digits of [int(s)] after the sign: decimal digits, single
    underscores allowed between two digits.  [acc] is the value read so
    far, [prev] tells whether the previous character was a digit. *)
Fixpoint read_digits (acc : Z) (prev : bool) (s : string) : option Z :=
  match s with
  | EmptyString => if prev then Some acc else None
  | String c r =>
      if PyStr.is_digit c then read_digits (10 * acc + digit_val c) true r
      else if (Ascii.eqb c "_"%char && prev)%bool then
        match r with
        | String d _ => if PyStr.is_digit d then read_digits acc false r else None
        | EmptyString => None
        end
      else None
  end.

(** The white space [int] skips around an ASCII string, C's [isspace]:
    TAB, LF, VT, FF, CR, SPACE (the separators 28 to 31 are not skipped). *)
Definition is_c_space (c : ascii) : bool :=
  let n := N_of_ascii c in ((N.leb 9 n && N.leb n 13) || N.eqb n 32)%bool.

Fixpoint skip_left (s : string) : string :=
  match s with
  | EmptyString => EmptyString
  | String c r => if is_c_space c then skip_left r else s
  end.

Fixpoint skip_right (s : string) : string :=
  match s with
  | EmptyString => EmptyString
  | String c r =>
      match skip_right r with
      | EmptyString => if is_c_space c then EmptyString else String c EmptyString
      | r' => String c r'
      end
  end.

(** The number of digit characters of a string. *)
Fixpoint count_digits (s : string) : nat :=
  match s with
  | EmptyString => O
  | String c r => if PyStr.is_digit c then S (count_digits r) else count_digits r
  end.

(** The default of [sys.get_int_max_str_digits()]. *)
Definition max_str_digits : nat := 4300.

(** [int(s)] on a string: [None] stands for [ValueError]. *)
Definition of_str (s : string) : option Z :=
  match skip_right (skip_left s) with
  | String c r =>
      if (max_str_digits <? count_digits (String c r))%nat then None
      else if Ascii.eqb c "-"%char then Z.opp <$> read_digits 0 false r
      else if Ascii.eqb c "+"%char then read_digits 0 false r
      else read_digits 0 false (String c r)
  | EmptyString => None
  end.

End PyInt.

(** ** Exceptions *)

Inductive exn : Type :=
  | IndexError
  | ValueError
  | KeyError
  | FileNotFoundError (path : string)
  | IsADirectoryError (path : string)
  | PermissionError (path : string).

Inductive result (A : Type) : Type :=
  | Ok (a : A)
  | Raise (e : exn).
Arguments Ok {A} a.
Arguments Raise {A} e.

#[global] Instance result_ret : MRet result := λ A a, Ok a.
#[global] Instance result_bind : MBind result := λ A B f m,
  match m with
  | Ok a => f a
  | Raise e => Raise e
  end.

#[global] Instance result_fmap : FMap result := λ A B f m,
  match m with
  | Ok a => Ok (f a)
  | Raise e => Raise e
  end.

Definition is_ok {A} (r : result A) : bool :=
  match r with Ok _ => true | Raise _ => false end.

(** [l[i]] for [i >= 0] *)
Definition getitem {A} (l : list A) (i : nat) : result A :=
  match l !! i with
  | Some x => Ok x
  | None => Raise IndexError
  end.

(** [l[-1]] *)
Definition getlast {A} (l : list A) : result A :=
  match last l with
  | Some x => Ok x
  | None => Raise IndexError
  end.

(** [int(v)] for an argument that is an [int] or a [str]. *)
Inductive pyarg : Type :=
  | PInt (n : Z)
  | PStr (s : string).

Definition py_int (v : pyarg) : result Z :=
  match v with
  | PInt n => Ok n
  | PStr s =>
      match PyInt.of_str s with
      | Some n => Ok n
      | None => Raise ValueError
      end
  end.

(** ** Dates *)

Record date : Type := mkDate { year : Z; month : Z; day : Z }.

(** [d.isoformat()] *)
Definition isoformat (d : date) : string :=
  PyStr.zfill 4 (PyInt.str (year d)) +:+ "-" +:+
  PyStr.zfill 2 (PyInt.str (month d)) +:+ "-" +:+
  PyStr.zfill 2 (PyInt.str (day d)).

(** ** [gen_birth_date] *)

Definition season_dates : gmap string string :=
  {[ "spring" := "-03-21"; "summer" := "-06-21";
     "fall" := "-09-21"; "winter" := "-12-21" ]}.

Definition gen_birth_date (today : date) (age_years : pyarg) (season_born : string)
  : result string :=
  let current_year := year today in
  a ← py_int age_years;
  let birth_year := current_year - a in
  let date_suffix := default "-01-01" (season_dates !! PyStr.lower season_born) in
  mret (PyInt.str birth_year +:+ date_suffix).

(** ** [gen_unique_id]

    The module-level dictionary [species_counts] is passed in and out. *)

Definition gen_unique_id (species : string) (species_counts : gmap string Z)
  : string * gmap string Z :=
  let species_key := PyStr.lower species in
  let counts1 :=
    match species_counts !! species_key with
    | None => <[species_key := 0]> species_counts
    | Some _ => species_counts
    end in
  let counts2 := <[species_key := counts1 !!! species_key + 1]> counts1 in
  let prefix := PyStr.capitalize (PyStr.slice_to 2 species) in
  let count_str := PyStr.zfill 2 (PyInt.str (counts2 !!! species_key)) in
  (prefix +:+ count_str, counts2).

(** A sequence of calls, in order, with the identifiers they return. *)
Fixpoint gen_unique_ids (calls : list string) (species_counts : gmap string Z)
  : list string * gmap string Z :=
  match calls with
  | [] => ([], species_counts)
  | s :: rest =>
      let '(i, c) := gen_unique_id s species_counts in
      let '(ids, c') := gen_unique_ids rest c in
      (i :: ids, c')
  end.

(** ** Files and the world *)

(** One-character string holding a line feed. *)
Definition nl : string := String PyStr.newline EmptyString.

(** The lines of a file opened in text mode, each with its terminator
    (LF, CR and CR LF all read as LF). [cur] is the current line, reversed;
    [after_cr] tells that the previous character was a CR. *)
Fixpoint readlines_go (cur : string) (after_cr : bool) (s : string) : list string :=
  match s with
  | EmptyString => if String.eqb cur EmptyString then [] else [String.rev cur]
  | String c r =>
      if Ascii.eqb c PyStr.newline then
        if after_cr then readlines_go cur false r
        else String.rev (String PyStr.newline cur) :: readlines_go EmptyString false r
      else if Ascii.eqb c "013"%char then
        String.rev (String PyStr.newline cur) :: readlines_go EmptyString true r
      else readlines_go (String c cur) false r
  end.

Definition readlines (content : string) : list string :=
  readlines_go EmptyString false content.

Record world : Type := mkWorld {
  w_fs : gmap string string;          (* path ↦ content *)
  w_stdout : list string;             (* printed lines, oldest first *)
  w_counts : gmap string Z;           (* the global [species_counts] *)
  w_today : date;                     (* [date.today()] *)
  w_write_errors : gmap string exn    (* path ↦ what opening it for writing raises *)
}.

Definition print (msg : string) (w : world) : world :=
  mkWorld (w_fs w) (w_stdout w ++ [msg]) (w_counts w) (w_today w) (w_write_errors w).

Definition set_counts (c : gmap string Z) (w : world) : world :=
  mkWorld (w_fs w) (w_stdout w) c (w_today w) (w_write_errors w).

(** The writes of an opened output file, which replace its content. *)
Definition write_file (path content : string) (w : world) : world :=
  mkWorld (<[path := content]> (w_fs w)) (w_stdout w) (w_counts w) (w_today w)
          (w_write_errors w).

(** [open(path, 'w')]: the empty path and a path in a missing directory
    raise [FileNotFoundError]; a directory or a protected path raises
    another error. *)
Definition open_write (path : string) (w : world) : result unit :=
  if String.eqb path "" then Raise (FileNotFoundError path)
  else match w_write_errors w !! path with
       | Some e => Raise e
       | None => Ok tt
       end.

(** [open(path, 'r')] followed by reading the whole file. *)
Definition open_read (path : string) (w : world) : result string :=
  match w_fs w !! path with
  | Some content => Ok content
  | None => Raise (FileNotFoundError path)
  end.

(** ** [load_names] *)

Record names_state : Type := mkNames {
  names_dict : gmap string (list string);
  current_species : string
}.

(** The body of the [for line in f] loop. *)
Definition load_names_line (line : string) (st : names_state) : result names_state :=
  let line := PyStr.strip line in
  if PyStr.endswith line "Names:" then
    w ← getitem (PyStr.split_ws line) 0;
    let current_species := PyStr.lower w in
    mret (mkNames (<[current_species := []]> (names_dict st)) current_species)
  else if (negb (String.eqb line "") && negb (String.eqb (current_species st) ""))%bool then
    let names_list := PyStr.strip <$> PyStr.split_on ","%char line in
    match names_dict st !! current_species st with
    | Some l =>
        mret (mkNames (<[current_species st := l ++ names_list]> (names_dict st))
                      (current_species st))
    | None => Raise KeyError
    end
  else mret st.

Fixpoint load_names_lines (lines : list string) (st : names_state) : result names_state :=
  match lines with
  | [] => mret st
  | line :: rest => st' ← load_names_line line st; load_names_lines rest st'
  end.

Definition load_names (file_path : string) (w : world)
  : result (gmap string (list string)) * world :=
  match open_read file_path w with
  | Ok content =>
      (names_dict <$> load_names_lines (readlines content) (mkNames ∅ ""), w)
  | Raise (FileNotFoundError _) =>
      (Ok ∅, print ("Error: " +:+ file_path +:+ " not found.") w)
  | Raise e => (Raise e, w)
  end.

(** ** The record parser (the first half of the loop body of
    [process_zoo_data]) *)

Record record : Type := mkRecord {
  age : Z;
  sex : string;
  species : string;
  season : string;
  color : string;
  weight : string;
  origin : string
}.

(** [line] has been stripped and is not empty. *)
Definition parse_line (line : string) : result record :=
  let parts := PyStr.strip <$> PyStr.split_on ","%char line in
  p0 ← getitem parts 0;
  let first_segment := PyStr.split_ws p0 in
  t0 ← getitem first_segment 0;
  age ← py_int (PStr t0);
  sex ← getitem first_segment 3;
  species ← getlast first_segment;
  p1 ← getitem parts 1;
  let season :=
    if PyStr.contains "born in" p1
    then PyStr.strip (PyStr.replace "born in" "" p1)
    else "unknown" in
  color ← getitem parts 2;
  weight ← getitem parts 3;
  let origin := PyStr.join ", " (drop 4 parts) in
  mret (mkRecord age sex species season color weight origin).

(** ** Name assignment *)

Definition placeholder : string := "Unnamed".

(** [species_names[species_key].pop(0)] when the key is present and its list
    is not empty. *)
Definition assign_name (species_key : string) (species_names : gmap string (list string))
  : string * gmap string (list string) :=
  match species_names !! species_key with
  | Some (n :: rest) => (n, <[species_key := rest]> species_names)
  | _ => (placeholder, species_names)
  end.

(** ** Habitats: an insertion-ordered dictionary of output lines *)

Definition habitats_t : Type := list (string * list string).

Fixpoint hab_lookup (k : string) (h : habitats_t) : option (list string) :=
  match h with
  | [] => None
  | (k', v) :: r => if String.eqb k k' then Some v else hab_lookup k r
  end.

(** [h[k].append(x)] *)
Fixpoint hab_append (k : string) (x : string) (h : habitats_t) : habitats_t :=
  match h with
  | [] => []
  | (k', v) :: r =>
      if String.eqb k k' then (k', v ++ [x]) :: r else (k', v) :: hab_append k x r
  end.

(** [if k not in h: h[k] = []] followed by [h[k].append(x)] *)
Definition hab_add (k : string) (x : string) (h : habitats_t) : habitats_t :=
  let h1 := match hab_lookup k h with
            | None => h ++ [(k, [])]
            | Some _ => h
            end in
  hab_append k x h1.

(** ** The loop body of [process_zoo_data] *)

(** The fields of one output line. *)
Record animal : Type := mkAnimal {
  a_key : string;
  a_unique_id : string;
  a_name : string;
  a_birth_date : string;
  a_color : string;
  a_sex : string;
  a_weight : string;
  a_origin : string;
  a_arrival_date : string
}.

Definition output_line (a : animal) : string :=
  a_unique_id a +:+ "; " +:+ a_name a +:+ "; birth date: " +:+ a_birth_date a +:+
  "; " +:+ a_color a +:+ "; " +:+ a_sex a +:+ "; " +:+ a_weight a +:+ "; " +:+
  a_origin a +:+ "; arrived " +:+ a_arrival_date a.

(** The state the loop updates: the global counters, the local name pools
    and the local habitats. *)
Record loop_state : Type := mkLoop {
  l_counts : gmap string Z;
  l_names : gmap string (list string);
  l_habitats : habitats_t
}.

(** One iteration: [None] for a blank line, the animal otherwise. *)
Definition process_line (today : date) (line : string) (st : loop_state)
  : result (option animal * loop_state) :=
  let line := PyStr.strip line in
  if String.eqb line "" then mret (None, st)
  else
    r ← parse_line line;
    birth_date ← gen_birth_date today (PInt (age r)) (season r);
    let '(unique_id, counts) := gen_unique_id (species r) (l_counts st) in
    let species_key := PyStr.lower (species r) in
    let '(name, names) := assign_name species_key (l_names st) in
    let arrival_date := isoformat today in
    let a := mkAnimal species_key unique_id name birth_date (color r) (sex r)
                      (weight r) (origin r) arrival_date in
    mret (Some a, mkLoop counts names (hab_add species_key (output_line a) (l_habitats st))).

(** The [for line in lines] loop.  It returns the animals processed so far,
    the state reached, and the exception that stopped it, if any. *)
Fixpoint process_lines (today : date) (lines : list string) (st : loop_state)
  : list animal * loop_state * option exn :=
  match lines with
  | [] => ([], st, None)
  | line :: rest =>
      match process_line today line st with
      | Ok (oa, st') =>
          let '(l, st'', e) := process_lines today rest st' in
          (option_list oa ++ l, st'', e)
      | Raise e => ([], st, Some e)
      end
  end.

(** ** Writing the report *)

Definition habitat_order : list string := ["hyena"; "lion"; "bear"; "tiger"].

(** The text written for one habitat. *)
Definition write_habitat (species : string) (animals : list string) : string :=
  PyStr.capitalize species +:+ " Habitat:" +:+ nl +:+ nl +:+
  PyStr.concat ((λ animal, animal +:+ nl) <$> animals) +:+ nl.

Definition write_standard (h : habitats_t) (species : string) : string :=
  match hab_lookup species h with
  | Some animals => write_habitat species animals
  | None => ""
  end.

Definition write_remaining (entry : string * list string) : string :=
  if bool_decide (entry.1 ∈ habitat_order) then ""
  else write_habitat entry.1 entry.2.

(** Everything written to the output file. *)
Definition report (h : habitats_t) : string :=
  PyStr.concat (write_standard h <$> habitat_order) +:+
  PyStr.concat (write_remaining <$> h).

(** ** [process_zoo_data] *)

(** The body of the [try] block. *)
Definition process_zoo_body (input_file output_file : string)
    (species_names : gmap string (list string)) (w : world) : option exn * world :=
  match open_read input_file w with
  | Raise e => (Some e, w)
  | Ok content =>
      let lines := readlines content in
      let '(_, st, e) :=
        process_lines (w_today w) lines (mkLoop (w_counts w) species_names []) in
      let w1 := set_counts (l_counts st) w in
      match e with
      | Some e => (Some e, w1)
      | None =>
          match open_write output_file w1 with
          | Raise e => (Some e, w1)
          | Ok _ => (None, write_file output_file (report (l_habitats st)) w1)
          end
      end
  end.

(** The result is the exception that escapes, if any. *)
Definition process_zoo_data (input_file names_file output_file : string) (w : world)
  : option exn * world :=
  match load_names names_file w with
  | (Raise e, w1) => (Some e, w1)
  | (Ok species_names, w1) =>
      match process_zoo_body input_file output_file species_names w1 with
      | (Some (FileNotFoundError _), w2) => (None, print "Error: Input file not found." w2)
      | r => r
      end
  end.

(** The animals a run processes, in input order. *)
Definition animals_of (today : date) (lines : list string) (st : loop_state) : list animal :=
  (process_lines today lines st).1.1.

Definition sample_line : string :=
  "4 year old female hyena, born in spring, tan color, 70 pounds, from Friguia Park, Tunisia".


(** ** Vocabulary of the specification *)

(** Two species strings are equal up to letter case. *)
Definition same_species (s1 s2 : string) : Prop := PyStr.lower s1 = PyStr.lower s2.

(** The number of calls in [calls] whose argument has species key [k]. *)
Definition calls_for (k : string) (calls : list string) : nat :=
  length (filter (λ s, PyStr.lower s = k) calls).

(** The animals of species key [k], in input order. *)
Definition animals_for (k : string) (l : list animal) : list animal :=
  filter (λ a, a_key a = k) l.

(** The distinct elements of a list in the order they are first met. *)
Fixpoint encounter_order (l : list string) : list string :=
  match l with
  | [] => []
  | x :: r => x :: filter (λ y, y ≠ x) (encounter_order r)
  end.



(** A line that the loop skips. *)
Definition blank (line : string) : Prop := PyStr.strip line = "".

(** The comma-delimited segments of a line, as the parser sees them. *)
Definition segments (line : string) : list string :=
  PyStr.strip <$> PyStr.split_on ","%char (PyStr.strip line).

(** The white-space tokens of the first segment. *)
Definition tokens (line : string) : list string :=
  PyStr.split_ws (default "" (head (segments line))).

(** The month-day suffix the specification gives for a season label. *)
Definition season_suffix (season_born : string) : string :=
  let s := PyStr.lower season_born in
  if decide (s = "spring") then "-03-21"
  else if decide (s = "summer") then "-06-21"
  else if decide (s = "fall") then "-09-21"
  else if decide (s = "winter") then "-12-21"
  else "-01-01".

(** The counter of a species key, zero before its first use. *)
Definition count_of (c : gmap string Z) (k : string) : Z := default 0 (c !! k).

(** The error a non-blank line with fewer than four segments stops with. *)
Definition short_line_error (line : string) : exn :=
  match tokens line with
  | t0 :: _ =>
      match PyInt.of_str t0 with
      | Some _ => IndexError
      | None => ValueError
      end
  | [] => IndexError
  end.

(** The names still available for a species key. *)
Definition pool_of (names : gmap string (list string)) (k : string) : list string :=
  default [] (names !! k).

(** The habitats a list of animals is grouped into. *)
Definition group (l : list animal) : habitats_t :=
  (λ k, (k, output_line <$> animals_for k l)) <$> encounter_order (a_key <$> l).

(** A line the loop gets through: blank, or accepted by the parser. *)
Definition well_formed (line : string) : Prop :=
  blank line ∨ ∃ r, parse_line (PyStr.strip line) = Ok r.

(** The invariant of the [load_names] loop: the current section, once there
    is one, has an entry in the dictionary. *)
Definition names_ok (st : names_state) : Prop :=
  current_species st = "" ∨ is_Some (names_dict st !! current_species st).

(** The message [load_names] prints for a missing file. *)
Definition names_error (file_path : string) : string :=
  "Error: " +:+ file_path +:+ " not found.".

Definition input_error : string := "Error: Input file not found.".

#[global] Instance blank_dec (line : string) : Decision (blank line).
Proof. unfold blank. apply _. Defined.

(** ** The script's entry point *)

Definition input_path : string := "arrivingAnimals.txt".
Definition names_path : string := "animalNames.txt".
Definition output_path : string := "zooPopulation.txt".


(** ** The statements of the specification that the code does not meet *)


(** A blank line is skipped, and a non-blank line with fewer than four
    segments stops the loop with an index error. *)
Definition short_line_claim (today : date) (line : string) (st : loop_state) : Prop :=
  (blank line → process_line today line st = Ok (None, st)) ∧
  (¬ blank line → (length (segments line) < 4)%nat →
   process_line today line st = Raise IndexError).

(** Whatever the number of tokens of the first segment, the parser goes
    through, with token 0 as age, token 3 as sex and the last token as
    species. *)
Definition token_count_claim (line : string) : Prop :=
  ¬ blank line → length (tokens line) ≠ 5%nat →
  ∃ r, parse_line (PyStr.strip line) = Ok r ∧
       PyInt.of_str <$> (tokens line !! 0%nat) = Some (Some (age r)) ∧
       tokens line !! 3%nat = Some (sex r) ∧
       last (tokens line) = Some (species r).

(** ** Sample data *)

Definition today_sample : date := mkDate 2026 11 3.

Definition lion_line : string :=
  "6 year old male lion, born in fall, gold color, 300 pounds, from Zanzibar, Tanzania".

Definition zebra_line : string :=
  "2 year old female zebra, unknown birth season, black and white, 400 pounds, from Etosha, Namibia".

(** Lion, hyena and zebra records, in that order. *)
Definition sample_input : string :=
  lion_line +:+ nl +:+ sample_line +:+ nl +:+ zebra_line +:+ nl.

Definition sample_names : string :=
  "Hyena Names:" +:+ nl +:+ nl +:+ "Shenzi, Banzai, Ed" +:+ nl +:+
  "Lion Names:" +:+ nl +:+ "Scar, Mufasa" +:+ nl.

Definition sample_world : world :=
  mkWorld {[ input_path := sample_input; names_path := sample_names ]} [] ∅ today_sample ∅.


(** An input of blank lines, and an output path in a directory that does
    not exist. *)
Definition lost_output : string := "reports/zooPopulation.txt".

Definition blank_world : world :=
  mkWorld {[ input_path := nl +:+ "  " +:+ nl ]} [] ∅ today_sample
          {[ lost_output := FileNotFoundError lost_output ]}.

(** Six tokens in the first segment. *)
Definition six_token_line : string :=
  "4 year old female spotted hyena, born in spring, tan color, 70 pounds, from Friguia Park, Tunisia".

(** Two tokens in the first segment. *)
Definition two_token_line : string :=
  "4 year, born in spring, tan color, 70 pounds, from Friguia Park, Tunisia".

(** ** Vocabulary for the names file *)

(** A line that opens a section of the names file. *)
Definition is_header (line : string) : bool :=
  PyStr.endswith (PyStr.strip line) "Names:".

(** The species key a header line introduces. *)
Definition header_key (line : string) : string :=
  PyStr.lower (default "" (head (PyStr.split_ws (PyStr.strip line)))).

(** The names listed on the lines of one section. *)
Definition section_names (body : list string) : list string :=
  concat ((λ line, PyStr.strip <$> PyStr.split_on ","%char (PyStr.strip line)) <$>
          filter (λ line, ¬ blank line) body).


(** * Supporting lemmas *)

(** ** Facts about strings *)

Section StringFacts.

Lemma append_nil_l (s : string) : "" +:+ s = s.
Proof. reflexivity. Qed.

Lemma append_cons (c : ascii) (a b : string) : String c a +:+ b = String c (a +:+ b).
Proof. reflexivity. Qed.

Lemma append_nil_r (s : string) : s +:+ "" = s.
Proof. induction s as [|c s IH]; [done|]. by rewrite append_cons, IH. Qed.

Lemma append_assoc (a b c : string) : (a +:+ b) +:+ c = a +:+ b +:+ c.
Proof. induction a as [|x a IH]; [done|]. by rewrite !append_cons, IH. Qed.

Lemma length_append (a b : string) :
  String.length (a +:+ b) = (String.length a + String.length b)%nat.
Proof. induction a as [|x a IH]; [done|]. rewrite append_cons. simpl. by rewrite IH. Qed.

Lemma char_upper_lower (c : ascii) :
  PyStr.char_upper (PyStr.char_lower c) = PyStr.char_upper c.
Proof. destruct c as [[] [] [] [] [] [] [] []]; reflexivity. Qed.

Lemma char_lower_idemp (c : ascii) :
  PyStr.char_lower (PyStr.char_lower c) = PyStr.char_lower c.
Proof. destruct c as [[] [] [] [] [] [] [] []]; reflexivity. Qed.

Lemma lower_idemp (s : string) : PyStr.lower (PyStr.lower s) = PyStr.lower s.
Proof. induction s as [|c s IH]; simpl; [done|]. by rewrite char_lower_idemp, IH. Qed.

Lemma lower_slice_to (n : nat) (s : string) :
  PyStr.lower (PyStr.slice_to n s) = PyStr.slice_to n (PyStr.lower s).
Proof.
  revert s. induction n as [|n IH]; intros [|c s]; simpl; try done.
  by rewrite IH.
Qed.

(** Capitalising only looks at the string up to letter case. *)
Lemma capitalize_lower (s : string) :
  PyStr.capitalize (PyStr.lower s) = PyStr.capitalize s.
Proof. destruct s as [|c s]; simpl; [done|]. by rewrite char_upper_lower, lower_idemp. Qed.

Lemma prefix_of_same_species (s1 s2 : string) :
  same_species s1 s2 →
  PyStr.capitalize (PyStr.slice_to 2 s1) = PyStr.capitalize (PyStr.slice_to 2 s2).
Proof.
  unfold same_species. intros H.
  rewrite <- (capitalize_lower (PyStr.slice_to 2 s1)).
  rewrite <- (capitalize_lower (PyStr.slice_to 2 s2)).
  by rewrite !lower_slice_to, H.
Qed.

End StringFacts.

(** ** Facts about [str] *)

Section StrFacts.

Lemma log2_div10 (n : Z) : 10 ≤ n → Z.log2 (n / 10) < Z.log2 n.
Proof.
  intros Hn.
  assert (0 < n / 10) by (apply Z.div_str_pos; lia).
  apply Z.log2_lt_pow2; [done|].
  destruct (Z.log2_spec n) as [_ Hub]; [lia|].
  rewrite Z.pow_succ_r in Hub by apply Z.log2_nonneg.
  apply Z.div_lt_upper_bound; lia.
Qed.

(** Any fuel above [log2 n] gives the same digits. *)
Lemma digits_fuel_irrel (f1 f2 : nat) (n : Z) :
  0 ≤ n → (Z.to_nat (Z.log2 n) < f1)%nat → (Z.to_nat (Z.log2 n) < f2)%nat →
  PyInt.digits f1 n = PyInt.digits f2 n.
Proof.
  revert f2 n. induction f1 as [|f1 IH]; intros [|f2] n Hn H1 H2; try lia.
  simpl. destruct (Z.ltb_spec n 10) as [|Hge]; [done|].
  pose proof (log2_div10 n Hge).
  assert (0 ≤ Z.log2 (n / 10)) by apply Z.log2_nonneg.
  rewrite (IH f2 (n / 10)); [done | | lia | lia].
  apply Z.div_pos; lia.
Qed.

Lemma str_nonneg (n : Z) :
  0 ≤ n →
  PyInt.str n =
    if n <? 10 then String (PyInt.digit_char n) ""
    else PyInt.str (n / 10) +:+ String (PyInt.digit_char (n mod 10)) "".
Proof.
  intros Hn. unfold PyInt.str at 1.
  destruct (Z.ltb_spec n 0) as [|_]; [lia|].
  unfold PyInt.digits_fuel. simpl.
  destruct (Z.ltb_spec n 10) as [|Hge]; [done|].
  unfold PyInt.str.
  assert (0 ≤ n / 10) by (apply Z.div_pos; lia).
  destruct (Z.ltb_spec (n / 10) 0) as [|_]; [lia|].
  f_equal. apply digits_fuel_irrel; [done | | unfold PyInt.digits_fuel; lia].
  pose proof (log2_div10 n Hge).
  assert (0 ≤ Z.log2 (n / 10)) by apply Z.log2_nonneg. lia.
Qed.

Lemma str_length_pos (n : Z) : 0 ≤ n → (1 ≤ String.length (PyInt.str n))%nat.
Proof.
  intros Hn. rewrite str_nonneg by done.
  destruct (n <? 10); simpl; [lia|]. rewrite length_append. simpl. lia.
Qed.

Lemma str_length_ge2 (n : Z) : 10 ≤ n → (2 ≤ String.length (PyInt.str n))%nat.
Proof.
  intros Hn. rewrite str_nonneg by lia.
  destruct (Z.ltb_spec n 10); [lia|]. rewrite length_append. simpl.
  assert (0 ≤ n / 10) by (apply Z.div_pos; lia).
  pose proof (str_length_pos (n / 10)). lia.
Qed.

Lemma str_length_ge3 (n : Z) : 100 ≤ n → (3 ≤ String.length (PyInt.str n))%nat.
Proof.
  intros Hn. rewrite str_nonneg by lia.
  destruct (Z.ltb_spec n 10); [lia|]. rewrite length_append. simpl.
  assert (10 ≤ n / 10) by (apply Z.div_le_lower_bound; lia).
  pose proof (str_length_ge2 (n / 10)). lia.
Qed.

Lemma str_one_digit (n : Z) :
  0 ≤ n < 10 → PyStr.zfill 2 (PyInt.str n) = "0" +:+ PyInt.str n.
Proof.
  intros Hn.
  assert (n = 0 ∨ n = 1 ∨ n = 2 ∨ n = 3 ∨ n = 4 ∨ n = 5 ∨ n = 6 ∨ n = 7 ∨ n = 8 ∨ n = 9)
    as Hc by lia.
  destruct Hc as [->|[->|[->|[->|[->|[->|[->|[->|[->| ->]]]]]]]]]; reflexivity.
Qed.

Lemma zfill_wide (w : nat) (s : string) :
  (w ≤ String.length s)%nat → PyStr.zfill w s = s.
Proof.
  intros H. unfold PyStr.zfill.
  destruct (Nat.leb_spec w (String.length s)); [done | lia].
Qed.

End StrFacts.

(** ** Facts about [gen_unique_id] *)

Section UniqueId.

Implicit Types (c : gmap string Z) (s k : string).


Lemma gen_unique_id_eq s c :
  gen_unique_id s c =
    (PyStr.capitalize (PyStr.slice_to 2 s) +:+
       PyStr.zfill 2 (PyInt.str (count_of c (PyStr.lower s) + 1)),
     <[PyStr.lower s := count_of c (PyStr.lower s) + 1]> c).
Proof.
  unfold gen_unique_id, count_of.
  destruct (c !! PyStr.lower s) as [n|] eqn:E; simpl.
  - rewrite lookup_total_insert_eq.
    by rewrite (lookup_total_correct _ _ _ E).
  - rewrite !lookup_total_insert_eq. by rewrite insert_insert_eq.
Qed.

Lemma count_of_gen_unique_id s c k :
  count_of (gen_unique_id s c).2 k =
    count_of c k + (if decide (PyStr.lower s = k) then 1 else 0).
Proof.
  rewrite gen_unique_id_eq. simpl. unfold count_of.
  rewrite lookup_insert. repeat case_decide; simplify_eq; simpl; lia.
Qed.

Lemma gen_unique_ids_cons s calls c :
  gen_unique_ids (s :: calls) c =
    ((gen_unique_id s c).1 :: (gen_unique_ids calls (gen_unique_id s c).2).1,
     (gen_unique_ids calls (gen_unique_id s c).2).2).
Proof.
  cbn [gen_unique_ids].
  destruct (gen_unique_id s c) as [i c1]. cbn [fst snd].
  destruct (gen_unique_ids calls c1) as [ids c2]. reflexivity.
Qed.

Lemma count_of_gen_unique_ids calls c k :
  count_of (gen_unique_ids calls c).2 k = count_of c k + Z.of_nat (calls_for k calls).
Proof.
  revert c. induction calls as [|s calls IH]; intros c.
  { unfold calls_for. simpl. lia. }
  rewrite gen_unique_ids_cons. cbn [snd].
  rewrite IH, count_of_gen_unique_id.
  unfold calls_for. rewrite filter_cons.
  repeat case_decide; simplify_eq; simpl; lia.
Qed.

Lemma zfill_str_nonneg (n : Z) :
  0 ≤ n →
  PyStr.zfill 2 (PyInt.str n) = (if n <? 10 then "0" +:+ PyInt.str n else PyInt.str n).
Proof.
  intros Hn. destruct (Z.ltb_spec n 10).
  - apply str_one_digit. lia.
  - apply zfill_wide, str_length_ge2. done.
Qed.

End UniqueId.

(** ** Facts about [gen_birth_date] *)

Lemma season_dates_lookup (k : string) :
  default "-01-01" (season_dates !! k) =
    if decide (k = "spring") then "-03-21"
    else if decide (k = "summer") then "-06-21"
    else if decide (k = "fall") then "-09-21"
    else if decide (k = "winter") then "-12-21"
    else "-01-01".
Proof.
  unfold season_dates.
  rewrite !lookup_insert, lookup_singleton.
  repeat case_decide; simplify_eq; reflexivity.
Qed.

Lemma gen_birth_date_eq (today : date) (a : pyarg) (s : string) (n : Z) :
  py_int a = Ok n →
  gen_birth_date today a s = Ok (PyInt.str (year today - n) +:+ season_suffix s).
Proof.
  intros H. unfold gen_birth_date. rewrite H. cbn [mbind result_bind mret result_ret].
  by rewrite season_dates_lookup.
Qed.

(** ** Facts about the record parser *)

Section Parser.

Lemma split_on_cons (sep : ascii) (s : string) :
  ∃ p ps, PyStr.split_on sep s = p :: ps.
Proof.
  induction s as [|c s [p [ps IH]]]; simpl; [by eauto|].
  destruct (Ascii.eqb c sep); [by eauto|]. rewrite IH. by eauto.
Qed.

Lemma segments_cons (line : string) : ∃ p ps, segments line = p :: ps.
Proof.
  unfold segments.
  destruct (split_on_cons ","%char (PyStr.strip line)) as [p [ps ->]].
  by eauto.
Qed.

Lemma parse_line_segments (line : string) :
  parse_line (PyStr.strip line) =
    (p0 ← getitem (segments line) 0;
     t0 ← getitem (PyStr.split_ws p0) 0;
     age ← py_int (PStr t0);
     sex ← getitem (PyStr.split_ws p0) 3;
     species ← getlast (PyStr.split_ws p0);
     p1 ← getitem (segments line) 1;
     color ← getitem (segments line) 2;
     weight ← getitem (segments line) 3;
     mret (mkRecord age sex species
             (if PyStr.contains "born in" p1
              then PyStr.strip (PyStr.replace "born in" "" p1) else "unknown")
             color weight (PyStr.join ", " (drop 4 (segments line))))).
Proof. reflexivity. Qed.

(** Only two kinds of error leave the parser. *)
Lemma parse_line_raise (line : string) (e : exn) :
  parse_line line = Raise e → e = IndexError ∨ e = ValueError.
Proof.
  unfold parse_line, getitem, getlast, py_int.
  repeat (match goal with
          | |- context [match ?x with _ => _ end] => destruct x eqn:?
          end; cbn [mbind result_bind mret result_ret]);
    intros; simplify_eq; auto.
Qed.

Lemma parse_line_short (line : string) :
  (length (segments line) < 4)%nat →
  parse_line (PyStr.strip line) = Raise (short_line_error line).
Proof.
  intros Hlen. rewrite parse_line_segments. unfold short_line_error, tokens.
  destruct (segments line) as [|p0 ps] eqn:Es.
  { destruct (segments_cons line) as [? [? ?]]. congruence. }
  change (default "" (head (p0 :: ps))) with p0.
  cbn [getitem lookup list_lookup mbind result_bind].
  destruct (PyStr.split_ws p0) as [|t0 ts] eqn:Et; [reflexivity|].
  cbn [getitem lookup list_lookup mbind result_bind py_int].
  destruct (PyInt.of_str t0) as [a|]; [|reflexivity].
  cbn [mbind result_bind].
  unfold getitem.
  destruct ((t0 :: ts) !! 3%nat); [|reflexivity]. cbn [mbind result_bind].
  unfold getlast. destruct (last (t0 :: ts)); [|reflexivity]. cbn [mbind result_bind].
  destruct ps as [|p1 [|p2 [|p3 ps]]]; simpl in Hlen; try lia; reflexivity.
Qed.

Lemma parse_line_long (line : string) (p0 p1 p2 p3 : string) (ps : list string)
    (t0 t1 t2 t3 : string) (ts : list string) (a : Z) :
  segments line = p0 :: p1 :: p2 :: p3 :: ps →
  PyStr.split_ws p0 = t0 :: t1 :: t2 :: t3 :: ts →
  PyInt.of_str t0 = Some a →
  parse_line (PyStr.strip line) =
    Ok (mkRecord a t3 (default t3 (last ts))
          (if PyStr.contains "born in" p1
           then PyStr.strip (PyStr.replace "born in" "" p1) else "unknown")
          p2 p3 (PyStr.join ", " ps)).
Proof.
  intros Hs Ht Ha. rewrite parse_line_segments, Hs.
  cbn [getitem lookup list_lookup mbind result_bind]. rewrite Ht.
  cbn [getitem lookup list_lookup mbind result_bind py_int]. rewrite Ha.
  cbn [mbind result_bind]. unfold getlast.
  replace (last (t0 :: t1 :: t2 :: t3 :: ts)) with (Some (default t3 (last ts))).
  { reflexivity. }
  rewrite !last_cons. by destruct (last ts).
Qed.

Lemma parse_line_few_tokens (line : string) :
  (length (tokens line) < 4)%nat → ∃ e, parse_line (PyStr.strip line) = Raise e.
Proof.
  intros Hlen. rewrite parse_line_segments. unfold tokens in Hlen.
  destruct (segments line) as [|p0 ps] eqn:Es.
  { destruct (segments_cons line) as [? [? ?]]. congruence. }
  change (default "" (head (p0 :: ps))) with p0 in Hlen.
  cbn [getitem lookup list_lookup mbind result_bind].
  destruct (PyStr.split_ws p0) as [|t0 ts] eqn:Et; [by eauto|].
  cbn [getitem lookup list_lookup mbind result_bind py_int].
  destruct (PyInt.of_str t0) as [a|]; [|by eauto].
  cbn [mbind result_bind].
  destruct ts as [|t1 [|t2 [|t3 ts]]]; simpl in Hlen; try lia; by eauto.
Qed.

End Parser.

(** ** Facts about the loop body *)

Section LoopBody.

Implicit Types (st : loop_state) (a : animal).

Lemma process_line_blank today line st :
  blank line → process_line today line st = Ok (None, st).
Proof.
  unfold blank, process_line. intros ->. reflexivity.
Qed.

Lemma process_line_raise today line st e :
  ¬ blank line → parse_line (PyStr.strip line) = Raise e →
  process_line today line st = Raise e.
Proof.
  unfold blank, process_line. intros Hb ->.
  destruct (String.eqb_spec (PyStr.strip line) ""); [done|]. reflexivity.
Qed.

(** What an iteration on a parsed line does to the state. *)
Lemma process_line_parsed today line st r :
  ¬ blank line → parse_line (PyStr.strip line) = Ok r →
  ∃ a st',
    process_line today line st = Ok (Some a, st') ∧
    a_key a = PyStr.lower (species r) ∧
    (a_unique_id a, l_counts st') = gen_unique_id (species r) (l_counts st) ∧
    (a_name a, l_names st') = assign_name (a_key a) (l_names st) ∧
    a_birth_date a = PyInt.str (year today - age r) +:+ season_suffix (season r) ∧
    a_arrival_date a = isoformat today ∧
    l_habitats st' = hab_add (a_key a) (output_line a) (l_habitats st).
Proof.
  unfold blank, process_line. intros Hb ->.
  destruct (String.eqb_spec (PyStr.strip line) ""); [done|].
  cbn [mbind result_bind].
  rewrite (gen_birth_date_eq today (PInt (age r)) (season r) (age r)) by done.
  cbn [mbind result_bind].
  destruct (gen_unique_id (species r) (l_counts st)) as [uid counts].
  destruct (assign_name (PyStr.lower (species r)) (l_names st)) as [name names] eqn:En.
  eexists _, _. split; [reflexivity|]. cbn. by rewrite En.
Qed.

Lemma process_line_inv today line st oa st' :
  process_line today line st = Ok (oa, st') →
  match oa with
  | None => blank line ∧ st' = st
  | Some a =>
      ¬ blank line ∧
      (a_name a, l_names st') = assign_name (a_key a) (l_names st) ∧
      l_habitats st' = hab_add (a_key a) (output_line a) (l_habitats st) ∧
      ∃ s, a_key a = PyStr.lower s ∧
           (a_unique_id a, l_counts st') = gen_unique_id s (l_counts st)
  end.
Proof.
  intros H. destruct (decide (blank line)) as [Hb|Hb].
  - rewrite process_line_blank in H by done. by simplify_eq.
  - destruct (parse_line (PyStr.strip line)) as [r|e] eqn:Ep.
    + destruct (process_line_parsed today line st r Hb Ep)
        as (a & st1 & H1 & Hk & Hid & Hn & _ & _ & Hh).
      rewrite H1 in H. simplify_eq. by eauto 10.
    + rewrite (process_line_raise today line st e) in H by done. done.
Qed.

Lemma process_line_is_ok today line st :
  well_formed line ↔ ∃ x, process_line today line st = Ok x.
Proof.
  split.
  - intros [Hb|[r Hr]].
    + rewrite process_line_blank by done. by eauto.
    + destruct (decide (blank line)) as [Hb|Hb].
      { rewrite process_line_blank by done. by eauto. }
      destruct (process_line_parsed today line st r Hb Hr) as (a & st1 & H1 & _).
      by eauto.
  - intros [x Hx]. destruct (decide (blank line)) as [Hb|Hb]; [by left|].
    destruct (parse_line (PyStr.strip line)) as [r|e] eqn:Ep.
    + right. by eauto.
    + rewrite (process_line_raise today line st e) in Hx by done. done.
Qed.

Lemma process_lines_cons today line rest st :
  process_lines today (line :: rest) st =
    match process_line today line st with
    | Ok (oa, st') =>
        (option_list oa ++ (process_lines today rest st').1.1,
         (process_lines today rest st').1.2,
         (process_lines today rest st').2)
    | Raise e => ([], st, Some e)
    end.
Proof.
  cbn [process_lines].
  destruct (process_line today line st) as [[oa st']|e]; [|done].
  by destruct (process_lines today rest st') as [[l st''] e].
Qed.

(** The loop gets through exactly when every line is well formed. *)
Lemma process_lines_no_error today lines st :
  (process_lines today lines st).2 = None ↔ Forall well_formed lines.
Proof.
  revert st. induction lines as [|line rest IH]; intros st.
  { split; [by constructor | done]. }
  rewrite process_lines_cons, Forall_cons.
  destruct (process_line today line st) as [[oa st']|e] eqn:E.
  - cbn [snd]. rewrite IH. split; [|by intros [_ ?]].
    intros H. split; [|done]. apply (process_line_is_ok today line st). by eauto.
  - cbn [snd]. split; [done|]. intros [Hw _].
    apply (process_line_is_ok today line st) in Hw as [x Hx]. congruence.
Qed.

(** An error that stops the loop is an index or a conversion error. *)
Lemma process_lines_error today lines st e :
  (process_lines today lines st).2 = Some e → e = IndexError ∨ e = ValueError.
Proof.
  revert st. induction lines as [|line rest IH]; intros st; [done|].
  rewrite process_lines_cons.
  destruct (process_line today line st) as [[oa st']|e'] eqn:E.
  - cbn [snd]. apply IH.
  - cbn [snd]. intros [= ->].
    destruct (decide (blank line)) as [Hb|Hb].
    { rewrite process_line_blank in E by done. done. }
    destruct (parse_line (PyStr.strip line)) as [r|e'] eqn:Ep.
    + destruct (process_line_parsed today line st r Hb Ep) as (a & st1 & H1 & _).
      congruence.
    + rewrite (process_line_raise today line st e') in E by done.
      simplify_eq. by eapply parse_line_raise.
Qed.

End LoopBody.

(** ** Facts about name assignment *)

Section Names.

Implicit Types (p : gmap string (list string)) (k x : string).

Lemma assign_name_fst k p : (assign_name k p).1 = nth 0 (pool_of p k) placeholder.
Proof.
  unfold assign_name, pool_of. by destruct (p !! k) as [[|n rest]|].
Qed.

Lemma assign_name_snd k p x :
  pool_of (assign_name k p).2 x =
    if decide (x = k) then drop 1 (pool_of p k) else pool_of p x.
Proof.
  unfold assign_name, pool_of.
  destruct (p !! k) as [[|n rest]|] eqn:E; cbn [snd];
    case_decide; simplify_eq; rewrite ?E; try done.
  - by rewrite lookup_insert_eq.
  - by rewrite lookup_insert_ne.
Qed.

Lemma animals_for_cons k (a : animal) (l : list animal) :
  animals_for k (a :: l) =
    if decide (a_key a = k) then a :: animals_for k l else animals_for k l.
Proof. unfold animals_for. by rewrite filter_cons. Qed.

Lemma animals_for_app k (l1 l2 : list animal) :
  animals_for k (l1 ++ l2) = animals_for k l1 ++ animals_for k l2.
Proof. unfold animals_for. by rewrite filter_app. Qed.

(** The names handed out to a species are its pool, front to back, then
    the placeholder; the pool left is what was not handed out. *)
Lemma names_fifo today lines st k :
  (∀ i a, animals_for k (animals_of today lines st) !! i = Some a →
          a_name a = nth i (pool_of (l_names st) k) placeholder) ∧
  pool_of (l_names (process_lines today lines st).1.2) k =
    drop (length (animals_for k (animals_of today lines st))) (pool_of (l_names st) k).
Proof.
  unfold animals_of.
  revert st. induction lines as [|line rest IH]; intros st.
  { split; [by intros i a H | done]. }
  rewrite process_lines_cons.
  destruct (process_line today line st) as [[oa st']|e] eqn:E;
    [|split; [by intros i a H | done]].
  cbn [fst snd]. apply process_line_inv in E.
  destruct (IH st') as [IH1 IH2]. clear IH.
  destruct oa as [a0|]; [|destruct E as [_ ->]; done].
  destruct E as (_ & Hn & _).
  assert (a_name a0 = nth 0 (pool_of (l_names st) (a_key a0)) placeholder) as Hname.
  { rewrite <- assign_name_fst, <- Hn. done. }
  assert (∀ x, pool_of (l_names st') x =
               if decide (x = a_key a0) then drop 1 (pool_of (l_names st) (a_key a0))
               else pool_of (l_names st) x) as Hpool.
  { intros x. rewrite <- assign_name_snd, <- Hn. done. }
  change (option_list (Some a0) ++ ?l) with (a0 :: l). rewrite animals_for_cons.
  rewrite IH2, Hpool. destruct (decide (a_key a0 = k)) as [<-|Hne].
  - rewrite decide_True by done. split.
    + intros [|i] a; cbn.
      * by intros [= <-].
      * intros H. rewrite (IH1 i a H), Hpool. case_decide; [|congruence].
        destruct (pool_of (l_names st) (a_key a0)); [by destruct i | done].
    + cbn [length]. by rewrite drop_drop.
  - rewrite decide_False by done. split; [|done].
    intros i a H. rewrite (IH1 i a H), Hpool. by case_decide.
Qed.

End Names.

(** ** Facts about habitats *)

Section Habitats.

Implicit Types (k x : string) (h : habitats_t) (ks : list string).

Lemma elem_of_encounter_order k (l : list string) : k ∈ encounter_order l ↔ k ∈ l.
Proof.
  induction l as [|y l IH]; cbn [encounter_order]; [done|].
  rewrite !elem_of_cons, list_elem_of_filter, IH.
  destruct (decide (k = y)); intuition.
Qed.

Lemma NoDup_encounter_order (l : list string) : NoDup (encounter_order l).
Proof.
  induction l as [|y l IH]; cbn [encounter_order]; [constructor|].
  constructor; [|by apply NoDup_filter].
  rewrite list_elem_of_filter. intros [H _]. by apply H.
Qed.

Lemma encounter_order_snoc (l : list string) x :
  encounter_order (l ++ [x]) =
    if decide (x ∈ l) then encounter_order l else encounter_order l ++ [x].
Proof.
  induction l as [|y l IH]; [done|].
  cbn [app encounter_order]. rewrite IH.
  destruct (decide (x ∈ l)) as [Hin|Hin].
  - rewrite decide_True by (apply elem_of_cons; by right). done.
  - rewrite filter_app, filter_cons, filter_nil.
    destruct (decide (x = y)) as [->|Hne].
    + rewrite decide_False by (intros H; by apply H).
      rewrite decide_True by (apply elem_of_cons; by left).
      by rewrite app_nil_r.
    + rewrite decide_True by done.
      rewrite decide_False; [done|]. rewrite elem_of_cons. by intros [?|?].
Qed.

Lemma hab_lookup_fmap k (g : string → list string) ks :
  hab_lookup k ((λ y, (y, g y)) <$> ks) = if decide (k ∈ ks) then Some (g k) else None.
Proof.
  induction ks as [|y ks IH]; [done|]. cbn [fmap list_fmap hab_lookup].
  destruct (String.eqb_spec k y) as [->|Hne].
  - rewrite decide_True by (apply elem_of_cons; by left). done.
  - change (list_fmap _ _ ?f ks) with (f <$> ks). rewrite IH.
    destruct (decide (k ∈ ks)).
    + rewrite decide_True by (apply elem_of_cons; by right). done.
    + rewrite decide_False; [done|]. rewrite elem_of_cons. by intros [?|?].
Qed.

Lemma hab_append_fmap k x (g : string → list string) ks :
  NoDup ks →
  hab_append k x ((λ y, (y, g y)) <$> ks) =
    (λ y, (y, if decide (y = k) then g y ++ [x] else g y)) <$> ks.
Proof.
  induction 1 as [|y ks Hy Hnd IH]; [done|]. cbn [fmap list_fmap hab_append].
  change (list_fmap _ _ ?f ks) with (f <$> ks).
  destruct (String.eqb_spec k y) as [->|Hne].
  - rewrite decide_True by done. f_equal.
    apply list_fmap_ext. intros i z Hz.
    rewrite decide_False; [done|]. intros ->. apply Hy.
    by eapply list_elem_of_lookup_2.
  - rewrite decide_False by done. by rewrite IH.
Qed.

Lemma hab_append_snoc k x (v : list string) h :
  hab_lookup k h = None → hab_append k x (h ++ [(k, v)]) = h ++ [(k, v ++ [x])].
Proof.
  induction h as [|[k' v'] h IH]; cbn [app hab_append hab_lookup].
  - by rewrite String.eqb_refl.
  - destruct (String.eqb k k'); [done|]. intros H. by rewrite IH.
Qed.

(** Adding the line of one more animal to the habitats of the animals
    before it gives the habitats of all of them. *)
Lemma animals_for_snoc k (l : list animal) (a : animal) :
  animals_for k (l ++ [a]) =
    if decide (a_key a = k) then animals_for k l ++ [a] else animals_for k l.
Proof.
  rewrite animals_for_app, animals_for_cons.
  change (animals_for k []) with (@nil animal).
  case_decide; [done | by rewrite app_nil_r].
Qed.

Lemma animals_for_absent k (l : list animal) :
  k ∉ a_key <$> l → animals_for k l = [].
Proof.
  induction l as [|a l IH]; [done|].
  rewrite fmap_cons, not_elem_of_cons, animals_for_cons. intros [Hne Hin].
  rewrite decide_False by done. by apply IH.
Qed.

Lemma hab_add_group (l : list animal) (a : animal) :
  hab_add (a_key a) (output_line a) (group l) = group (l ++ [a]).
Proof.
  unfold hab_add, group.
  rewrite hab_lookup_fmap, fmap_app. cbn [fmap list_fmap].
  change (list_fmap _ _ ?f ?l) with (f <$> l).
  rewrite encounter_order_snoc.
  destruct (decide (a_key a ∈ encounter_order (a_key <$> l))) as [Hin|Hin].
  - rewrite decide_True by (by apply elem_of_encounter_order).
    rewrite hab_append_fmap by apply NoDup_encounter_order.
    apply list_fmap_ext. intros i y _. f_equal.
    rewrite animals_for_snoc.
    destruct (decide (y = a_key a)) as [->|Hne].
    + rewrite decide_True by done. by rewrite fmap_app.
    + by rewrite decide_False by done.
  - rewrite elem_of_encounter_order in Hin.
    rewrite decide_False by done.
    rewrite hab_append_snoc.
    2:{ rewrite hab_lookup_fmap. rewrite decide_False; [done|].
        by rewrite elem_of_encounter_order. }
    rewrite fmap_app. cbn [fmap list_fmap]. f_equal.
    + apply list_fmap_ext. intros i y Hy. f_equal.
      rewrite animals_for_snoc, decide_False; [done|].
      intros Heq. apply Hin. rewrite Heq.
      apply elem_of_encounter_order. by eapply list_elem_of_lookup_2.
    + do 2 f_equal. rewrite animals_for_snoc, decide_True by done.
      by rewrite animals_for_absent.
Qed.

End Habitats.

(** ** Facts about the report *)

Section Report.





Lemma process_lines_habitats today lines st (pre : list animal) :
  l_habitats st = group pre →
  l_habitats (process_lines today lines st).1.2 =
    group (pre ++ animals_of today lines st).
Proof.
  unfold animals_of.
  revert st pre. induction lines as [|line rest IH]; intros st pre Hst.
  { cbn. by rewrite app_nil_r. }
  rewrite process_lines_cons.
  destruct (process_line today line st) as [[oa st']|e] eqn:E.
  2:{ cbn. by rewrite app_nil_r. }
  cbn [fst snd]. apply process_line_inv in E.
  destruct oa as [a|].
  - destruct E as (_ & _ & Hh & _).
    change (option_list (Some a) ++ ?l) with (a :: l).
    rewrite (IH st' (pre ++ [a])).
    + by rewrite <- app_assoc.
    + by rewrite Hh, Hst, hab_add_group.
  - destruct E as [_ ->]. by apply IH.
Qed.


End Report.

(** ** Facts about [load_names] *)

Section LoadNames.


(** A header line has a first word. *)
Lemma split_ws_go_header (s : string) :
  PyStr.endswith s "Names:" = true → ∀ cur, PyStr.split_ws_go cur s ≠ [].
Proof.
  induction s as [|c s IH]; cbn [PyStr.endswith].
  { discriminate. }
  destruct (String.eqb_spec (String c s) "Names:") as [->|_].
  { intros _ cur. vm_compute. discriminate. }
  intros Hs cur. cbn [PyStr.split_ws_go].
  destruct (PyStr.is_space c).
  - intros Happ. apply app_eq_nil in Happ as [_ Happ]. by eapply IH.
  - by apply IH.
Qed.

Lemma load_names_line_ok (line : string) (st : names_state) :
  names_ok st → ∃ st', load_names_line line st = Ok st' ∧ names_ok st'.
Proof.
  intros Hst. unfold load_names_line.
  destruct (PyStr.endswith (PyStr.strip line) "Names:") eqn:Eh.
  - pose proof (split_ws_go_header _ Eh None) as Hw.
    unfold getitem. fold (PyStr.split_ws (PyStr.strip line)) in Hw.
    destruct (PyStr.split_ws (PyStr.strip line)) as [|w ws]; [done|].
    cbn. eexists. split; [reflexivity|]. right. cbn.
    rewrite lookup_insert_eq. by eauto.
  - destruct (negb (String.eqb (PyStr.strip line) "") &&
              negb (String.eqb (current_species st) ""))%bool eqn:Eb.
    + destruct Hst as [Hst|[l Hl]].
      { rewrite Hst in Eb. cbn in Eb. by rewrite andb_false_r in Eb. }
      rewrite Hl. eexists. split; [reflexivity|]. right. cbn.
      rewrite lookup_insert_eq. by eauto.
    + by eauto.
Qed.

Lemma load_names_lines_ok (lines : list string) (st : names_state) :
  names_ok st → ∃ st', load_names_lines lines st = Ok st' ∧ names_ok st'.
Proof.
  revert st. induction lines as [|line rest IH]; intros st Hst; [by eauto|].
  cbn [load_names_lines].
  destruct (load_names_line_ok line st Hst) as (st1 & -> & Hst1).
  cbn [mbind result_bind]. by apply IH.
Qed.

Lemma load_names_missing (f : string) (w : world) :
  w_fs w !! f = None → load_names f w = (Ok ∅, print (names_error f) w).
Proof. intros H. unfold load_names, open_read. by rewrite H. Qed.

Lemma load_names_present (f content : string) (w : world) :
  w_fs w !! f = Some content → ∃ pool, load_names f w = (Ok pool, w).
Proof.
  intros H. unfold load_names, open_read. rewrite H.
  destruct (load_names_lines_ok (readlines content) (mkNames ∅ "")) as (st & -> & _).
  { by left. }
  by eauto.
Qed.

(** [load_names] never raises, and only ever prints. *)
Lemma load_names_total (f : string) (w : world) :
  ∃ pool, load_names f w =
    (Ok pool,
     mkWorld (w_fs w)
             (w_stdout w ++ if w_fs w !! f is Some _ then [] else [names_error f])
             (w_counts w) (w_today w) (w_write_errors w)) ∧
    (w_fs w !! f = None → pool = ∅).
Proof.
  destruct (w_fs w !! f) as [content|] eqn:E.
  - destruct (load_names_present f content w E) as [pool ->].
    exists pool. rewrite app_nil_r. by destruct w.
  - rewrite load_names_missing by done. by eauto.
Qed.

End LoadNames.

(** ** Facts about [process_zoo_data] *)

Section Run.

Lemma process_zoo_data_missing_input (input names output : string) (w : world) :
  w_fs w !! input = None →
  process_zoo_data input names output w =
    (None, print input_error (load_names names w).2).
Proof.
  intros Hin. unfold process_zoo_data.
  destruct (load_names_total names w) as (pool & -> & _). cbn [snd].
  unfold process_zoo_body, open_read. cbn [w_fs]. by rewrite Hin.
Qed.

Lemma process_zoo_data_present (input names output content : string) (w : world) :
  w_fs w !! input = Some content →
  ∃ pool,
    (load_names names w).1 = Ok pool ∧
    (w_fs w !! names = None → pool = ∅) ∧
    let r := process_lines (w_today w) (readlines content)
               (mkLoop (w_counts w) pool []) in
    let w1 := set_counts (l_counts r.1.2) (load_names names w).2 in
    process_zoo_data input names output w =
      match r.2 with
      | Some e => (Some e, w1)
      | None =>
          match open_write output w with
          | Ok _ => (None, write_file output (report (l_habitats r.1.2)) w1)
          | Raise (FileNotFoundError _) => (None, print input_error w1)
          | Raise e => (Some e, w1)
          end
      end.
Proof.
  intros Hin. unfold process_zoo_data.
  destruct (load_names_total names w) as (pool & -> & Hpool). cbn [fst snd].
  exists pool. split; [done|]. split; [done|].
  unfold process_zoo_body, open_read. cbn [w_fs w_today w_counts]. rewrite Hin.
  pose proof (process_lines_error (w_today w) (readlines content)
                (mkLoop (w_counts w) pool [])) as He.
  destruct (process_lines (w_today w) (readlines content)
              (mkLoop (w_counts w) pool [])) as [[l st] [e|]]; cbn [fst snd] in *.
  - by destruct (He e eq_refl) as [-> | ->].
  - unfold open_write. cbn [set_counts w_write_errors].
    destruct (String.eqb output ""); [done|].
    by destruct (w_write_errors w !! output) as [[]|].
Qed.

(** Neither the name loader nor the loop touches what can be opened. *)
Lemma open_write_load_names (path f : string) (w : world) :
  open_write path (load_names f w).2 = open_write path w.
Proof. by destruct (load_names_total f w) as (pool & -> & _). Qed.

End Run.

Section RunFacts.



Lemma short_line_not_well_formed (line : string) :
  ¬ blank line → (length (segments line) < 4)%nat → ¬ well_formed line.
Proof.
  intros Hb Hlen [?|[r Hr]]; [done|].
  rewrite parse_line_short in Hr by done. done.
Qed.

End RunFacts.

(** ** More facts about [load_names] *)

Section Sections.

Lemma rev_app_nonempty (s t : string) : t ≠ "" → String.rev_app s t ≠ "".
Proof.
  revert t. induction s as [|c s IH]; intros t Ht; [done|].
  cbn [String.rev_app]. by apply IH.
Qed.

(** The words [split] returns are not empty. *)
Lemma option_list_rev_nonempty (cur : option string) :
  cur ≠ Some "" → Forall (λ w, w ≠ "") (option_list (String.rev <$> cur)).
Proof.
  intros Hcur. destruct cur as [[|c x]|]; cbn.
  - exfalso. by apply Hcur.
  - apply Forall_singleton. by apply rev_app_nonempty.
  - apply Forall_nil_2.
Qed.

(** The words [split] returns are not empty. *)
Lemma split_ws_go_nonempty (s : string) (cur : option string) :
  cur ≠ Some "" → Forall (λ w, w ≠ "") (PyStr.split_ws_go cur s).
Proof.
  revert cur. induction s as [|c s IH]; intros cur Hcur; cbn [PyStr.split_ws_go].
  - by apply option_list_rev_nonempty.
  - destruct (PyStr.is_space c).
    + apply Forall_app. split; [by apply option_list_rev_nonempty|].
      apply IH. discriminate.
    + apply IH. discriminate.
Qed.

Lemma lower_nonempty (s : string) : s ≠ "" → PyStr.lower s ≠ "".
Proof. by destruct s. Qed.

Lemma header_key_nonempty (line : string) :
  is_header line = true → header_key line ≠ "".
Proof.
  unfold is_header, header_key. intros Hh.
  pose proof (split_ws_go_header _ Hh None) as Hne.
  pose proof (split_ws_go_nonempty (PyStr.strip line) None) as Hall.
  fold (PyStr.split_ws (PyStr.strip line)) in Hne, Hall.
  destruct (PyStr.split_ws (PyStr.strip line)) as [|w ws]; [done|].
  apply lower_nonempty. cbn. apply Forall_cons in Hall as [Hw _]; done.
Qed.

Lemma load_names_line_header (line : string) (st : names_state) :
  is_header line = true →
  load_names_line line st =
    Ok (mkNames (<[header_key line := []]> (names_dict st)) (header_key line)).
Proof.
  unfold is_header, header_key, load_names_line. intros Hh. rewrite Hh.
  pose proof (split_ws_go_header _ Hh None) as Hne.
  fold (PyStr.split_ws (PyStr.strip line)) in Hne.
  by destruct (PyStr.split_ws (PyStr.strip line)) as [|w ws].
Qed.

Lemma load_names_line_blank (line : string) (st : names_state) :
  blank line → load_names_line line st = Ok st.
Proof. unfold blank, load_names_line. intros ->. reflexivity. Qed.

Lemma load_names_line_names (line : string) (d : gmap string (list string))
    (k : string) (l : list string) :
  is_header line = false → ¬ blank line → k ≠ "" → d !! k = Some l →
  load_names_line line (mkNames d k) =
    Ok (mkNames
          (<[k := l ++ (PyStr.strip <$> PyStr.split_on ","%char (PyStr.strip line))]> d)
          k).
Proof.
  unfold is_header, blank, load_names_line. intros -> Hb Hk Hl. cbn.
  destruct (String.eqb_spec (PyStr.strip line) ""); [done|].
  destruct (String.eqb_spec k ""); [done|]. cbn. by rewrite Hl.
Qed.

Lemma section_names_cons (line : string) (body : list string) :
  section_names (line :: body) =
    (if decide (blank line) then []
     else PyStr.strip <$> PyStr.split_on ","%char (PyStr.strip line))
    ++ section_names body.
Proof.
  unfold section_names. rewrite filter_cons.
  destruct (decide (blank line)) as [Hb|Hb].
  - rewrite decide_False by (by intros ?). done.
  - by rewrite decide_True.
Qed.

Lemma load_names_lines_body (body : list string) (d : gmap string (list string))
    (k : string) (l : list string) :
  Forall (λ line, is_header line = false) body → k ≠ "" → d !! k = Some l →
  load_names_lines body (mkNames d k) =
    Ok (mkNames (<[k := l ++ section_names body]> d) k).
Proof.
  revert d l. induction body as [|line body IH]; intros d l Hb Hk Hl.
  { cbn. unfold section_names. cbn. rewrite app_nil_r. by rewrite insert_id. }
  apply Forall_cons in Hb as [Hh Hb]. cbn [load_names_lines].
  rewrite section_names_cons. destruct (decide (blank line)) as [Hbl|Hbl].
  - rewrite load_names_line_blank by done. cbn [mbind result_bind app].
    by apply IH.
  - rewrite (load_names_line_names line d k l) by done. cbn [mbind result_bind].
    rewrite (IH _ (l ++ (PyStr.strip <$> PyStr.split_on ","%char (PyStr.strip line))))
      by (done || by rewrite lookup_insert_eq).
    by rewrite insert_insert_eq, app_assoc.
Qed.

Lemma load_names_lines_no_header (lines : list string) :
  Forall (λ line, is_header line = false) lines →
  load_names_lines lines (mkNames ∅ "") = Ok (mkNames ∅ "").
Proof.
  induction 1 as [|line lines Hh _ IH]; [done|].
  cbn [load_names_lines]. unfold load_names_line.
  unfold is_header in Hh. rewrite Hh. cbn [current_species].
  rewrite andb_false_r. cbn [mbind result_bind mret result_ret]. apply IH.
Qed.

End Sections.

(** ** Reading back the digits of [str] *)

Section Digits.

Lemma digit_char_val (n : Z) :
  0 ≤ n < 10 →
  PyStr.is_digit (PyInt.digit_char n) = true ∧ PyInt.digit_val (PyInt.digit_char n) = n.
Proof.
  intros Hn.
  assert (n = 0 ∨ n = 1 ∨ n = 2 ∨ n = 3 ∨ n = 4 ∨ n = 5 ∨ n = 6 ∨ n = 7 ∨ n = 8 ∨ n = 9)
    as Hc by lia.
  destruct Hc as [->|[->|[->|[->|[->|[->|[->|[->|[->| ->]]]]]]]]]; by vm_compute.
Qed.

Lemma read_digits_digit (n acc : Z) (prev : bool) (rest : string) :
  0 ≤ n < 10 →
  PyInt.read_digits acc prev (String (PyInt.digit_char n) rest) =
    PyInt.read_digits (10 * acc + n) true rest.
Proof.
  intros Hn. destruct (digit_char_val n Hn) as [Hd Hv].
  cbn [PyInt.read_digits]. by rewrite Hd, Hv.
Qed.

Lemma read_digits_digits (fuel : nat) (n acc : Z) (prev : bool) (rest : string) :
  0 ≤ n → (Z.to_nat (Z.log2 n) < fuel)%nat →
  PyInt.read_digits acc prev (PyInt.digits fuel n +:+ rest) =
    PyInt.read_digits
      (acc * 10 ^ Z.of_nat (String.length (PyInt.digits fuel n)) + n) true rest.
Proof.
  revert n acc prev rest.
  induction fuel as [|fuel IH]; intros n acc prev rest Hn Hf; [lia|].
  cbn [PyInt.digits]. destruct (Z.ltb_spec n 10) as [Hlt|Hge].
  - rewrite append_cons, append_nil_l, read_digits_digit by lia.
    f_equal. cbn [String.length]. lia.
  - pose proof (log2_div10 n Hge) as Hlog.
    assert (0 ≤ Z.log2 (n / 10)) by apply Z.log2_nonneg.
    assert (0 ≤ n / 10) by (apply Z.div_pos; lia).
    pose proof (Z.mod_pos_bound n 10 ltac:(lia)) as Hm.
    rewrite append_assoc, append_cons, append_nil_l.
    rewrite IH by lia. rewrite read_digits_digit by lia. f_equal.
    rewrite length_append. cbn [String.length].
    rewrite Nat2Z.inj_add, Z.pow_add_r by lia.
    change (10 ^ Z.of_nat 1) with 10.
    pose proof (Z.div_mod n 10 ltac:(lia)) as Hdm. lia.
Qed.

(** Reading the digits of a non-negative integer gives it back. *)
Lemma read_digits_str (n : Z) (prev : bool) :
  0 ≤ n → PyInt.read_digits 0 prev (PyInt.str n) = Some n.
Proof.
  intros Hn. unfold PyInt.str. destruct (Z.ltb_spec n 0); [lia|].
  rewrite <- (append_nil_r (PyInt.digits _ n)).
  rewrite read_digits_digits; [by cbn | done | unfold PyInt.digits_fuel; lia].
Qed.

Lemma read_digits_zfill_str (n : Z) :
  0 ≤ n → PyInt.read_digits 0 false (PyStr.zfill 2 (PyInt.str n)) = Some n.
Proof.
  intros Hn. rewrite zfill_str_nonneg by done. destruct (n <? 10).
  - rewrite append_cons, append_nil_l.
    change "0"%char with (PyInt.digit_char 0).
    rewrite read_digits_digit by lia. by apply read_digits_str.
  - by apply read_digits_str.
Qed.

Lemma zfill_str_inj (n m : Z) :
  0 ≤ n → 0 ≤ m → PyStr.zfill 2 (PyInt.str n) = PyStr.zfill 2 (PyInt.str m) → n = m.
Proof.
  intros Hn Hm Heq.
  pose proof (read_digits_zfill_str n Hn) as H1.
  rewrite Heq, read_digits_zfill_str in H1 by done. by simplify_eq.
Qed.

End Digits.

(** ** Counters and identifiers along the loop *)

Section Identifiers.

Lemma prefix_of_key (s : string) :
  PyStr.capitalize (PyStr.slice_to 2 s) =
  PyStr.capitalize (PyStr.slice_to 2 (PyStr.lower s)).
Proof.
  apply prefix_of_same_species. unfold same_species. by rewrite lower_idemp.
Qed.

Lemma ids_loop today lines st k :
  (∀ i a, animals_for k (animals_of today lines st) !! i = Some a →
          a_unique_id a =
            PyStr.capitalize (PyStr.slice_to 2 k) +:+
            PyStr.zfill 2 (PyInt.str (count_of (l_counts st) k + Z.of_nat i + 1))) ∧
  count_of (l_counts (process_lines today lines st).1.2) k =
    count_of (l_counts st) k +
    Z.of_nat (length (animals_for k (animals_of today lines st))).
Proof.
  unfold animals_of.
  revert st. induction lines as [|line rest IH]; intros st.
  { split; [by intros i a H | cbn; lia]. }
  rewrite process_lines_cons.
  destruct (process_line today line st) as [[oa st']|e] eqn:E;
    [|split; [by intros i a H | cbn; lia]].
  cbn [fst snd]. apply process_line_inv in E.
  destruct (IH st') as [IH1 IH2]. clear IH.
  destruct oa as [a0|]; [|destruct E as [_ ->]; done].
  destruct E as (_ & _ & _ & s & Hk & Hid).
  rewrite gen_unique_id_eq in Hid. injection Hid as Hid Hc.
  assert (∀ x, count_of (l_counts st') x =
               count_of (l_counts st) x + if decide (a_key a0 = x) then 1 else 0)
    as Hcount.
  { intros x. rewrite Hc, Hk. unfold count_of at 1. rewrite lookup_insert.
    unfold count_of. repeat case_decide; simplify_eq; cbn; lia. }
  change (option_list (Some a0) ++ ?l) with (a0 :: l). rewrite animals_for_cons.
  rewrite IH2, Hcount. destruct (decide (a_key a0 = k)) as [<-|Hne].
  - split.
    + intros [|i] a; cbn [lookup list_lookup].
      * intros [= <-]. rewrite Hid, Hk, <- prefix_of_key. do 3 f_equal. lia.
      * intros H. rewrite (IH1 i a H), Hcount, decide_True by done.
        do 3 f_equal. lia.
    + cbn [length]. lia.
  - split; [|lia].
    intros i a H. rewrite (IH1 i a H), Hcount, decide_False by done.
    do 3 f_equal. lia.
Qed.

End Identifiers.

Section MoreRunFacts.

Lemma process_lines_blank today lines st :
  Forall blank lines → process_lines today lines st = ([], st, None).
Proof.
  induction 1 as [|line rest Hb _ IH]; [done|].
  rewrite process_lines_cons, process_line_blank by done. by rewrite IH.
Qed.

Lemma load_names_world (f : string) (w : world) :
  w_fs (load_names f w).2 = w_fs w ∧
  w_counts (load_names f w).2 = w_counts w ∧
  w_today (load_names f w).2 = w_today w.
Proof. by destruct (load_names_total f w) as (pool & -> & _). Qed.

End MoreRunFacts.

(** ** Facts about the text of the report *)

Section ReportText.








End ReportText.

(** ** Identifiers along a sequence of calls *)

Section CallSequence.

Lemma calls_for_cons (k s : string) (l : list string) :
  calls_for k (s :: l) =
    ((if decide (PyStr.lower s = k) then 1 else 0) + calls_for k l)%nat.
Proof. unfold calls_for. rewrite filter_cons. by case_decide. Qed.

(** The identifier a call returns only depends on the lower-cased species
    and on the number of earlier calls with the same lower-cased species. *)
Lemma gen_unique_ids_lookup (l : list string) (c : gmap string Z) (i : nat) (s : string) :
  l !! i = Some s →
  (gen_unique_ids l c).1 !! i =
    Some (PyStr.capitalize (PyStr.slice_to 2 (PyStr.lower s)) +:+
          PyStr.zfill 2 (PyInt.str (count_of c (PyStr.lower s) +
                                    Z.of_nat (calls_for (PyStr.lower s) (take i l)) + 1))).
Proof.
  revert c i. induction l as [|s0 l IH]; intros c i Hi; [done|].
  rewrite gen_unique_ids_cons. cbn [fst]. destruct i as [|i].
  - injection Hi as ->. cbn [lookup list_lookup take].
    rewrite gen_unique_id_eq. cbn [fst]. rewrite <- prefix_of_key.
    do 4 f_equal. unfold calls_for. cbn. lia.
  - cbn [lookup list_lookup] in *. rewrite (IH _ i Hi).
    rewrite count_of_gen_unique_id. cbn [take]. rewrite calls_for_cons.
    do 4 f_equal. case_decide; lia.
Qed.

End CallSequence.

(** ** Sanity checks of the primitives *)

Example str_samples :
  PyInt.str 0 = "0" ∧ PyInt.str 7 = "7" ∧ PyInt.str 100 = "100" ∧
  PyInt.str 2022 = "2022" ∧ PyInt.str (-35) = "-35".
Proof. repeat split; reflexivity. Qed.

Example of_str_samples :
  PyInt.of_str "4" = Some 4 ∧ PyInt.of_str " -12 " = Some (-12) ∧
  PyInt.of_str "1_000" = Some 1000 ∧ PyInt.of_str "007" = Some 7 ∧
  PyInt.of_str "four" = None ∧ PyInt.of_str "" = None ∧
  PyInt.of_str "4_" = None ∧ PyInt.of_str "4__0" = None ∧
  PyInt.of_str "+ 4" = None.
Proof. repeat split; reflexivity. Qed.

Example pystr_samples :
  PyStr.strip "  born in spring " = "born in spring" ∧
  PyStr.split_on ","%char "a, b,,c" = ["a"; " b"; ""; "c"] ∧
  PyStr.split_on ","%char "" = [""] ∧
  PyStr.split_ws "  4 year  old female hyena " = ["4"; "year"; "old"; "female"; "hyena"] ∧
  PyStr.split_ws "   " = [] ∧
  PyStr.replace "born in" "" "born in spring" = " spring" ∧
  PyStr.replace "aa" "b" "aaaaa" = "bba" ∧
  PyStr.join ", " ["x"; "y"; "z"] = "x, y, z" ∧
  PyStr.capitalize "hYENA" = "Hyena" ∧
  PyStr.zfill 2 "3" = "03" ∧ PyStr.zfill 2 "100" = "100" ∧ PyStr.zfill 4 "-7" = "-007" ∧
  PyStr.endswith "Hyena Names:" "Names:" = true ∧
  PyStr.contains "born in" "was born in fall" = true.
Proof. repeat split; reflexivity. Qed.

Example gen_unique_ids_sample :
  (gen_unique_ids ["hyena"; "Lion"; "HYENA"; "hyena"] ∅).1 = ["Hy01"; "Li01"; "Hy02"; "Hy03"].
Proof. vm_compute. reflexivity. Qed.

Example gen_birth_date_sample :
  gen_birth_date (mkDate 2026 11 3) (PInt 4) "Spring" = Ok "2022-03-21".
Proof. vm_compute. reflexivity. Qed.

(** * The claims of the specification *)

(** C1: the k-th call of the generator for a species, counting the calls
    whose argument is equal to it up to letter case since the counters were
    empty, returns the first two characters of the argument, capitalised,
    followed by the decimal digits of k padded with a zero to two digits;
    from 100 on the digits are those of k, three or more, unpadded. *)
Theorem gen_unique_id_kth_call (pre : list string) (s : string) :
  let k := Z.of_nat (S (calls_for (PyStr.lower s) pre)) in
  (gen_unique_id s (gen_unique_ids pre ∅).2).1 =
    PyStr.capitalize (PyStr.slice_to 2 s) +:+ PyStr.zfill 2 (PyInt.str k)
  ∧ PyStr.zfill 2 (PyInt.str k) = (if k <? 10 then "0" +:+ PyInt.str k else PyInt.str k)
  ∧ (2 ≤ String.length (PyStr.zfill 2 (PyInt.str k)))%nat
  ∧ (100 ≤ k → (3 ≤ String.length (PyStr.zfill 2 (PyInt.str k)))%nat).
Proof.
  intros k.
  assert (1 ≤ k) as Hk by (unfold k; lia).
  assert (PyStr.zfill 2 (PyInt.str k) = (if k <? 10 then "0" +:+ PyInt.str k else PyInt.str k))
    as Hz by (apply zfill_str_nonneg; lia).
  split; [|split; [done|split]].
  - rewrite gen_unique_id_eq. simpl. do 2 f_equal.
    rewrite count_of_gen_unique_ids. unfold count_of. rewrite lookup_empty. simpl.
    f_equal. unfold k. lia.
  - rewrite Hz. destruct (Z.ltb_spec k 10).
    + rewrite length_append. pose proof (str_length_pos k). simpl. lia.
    + by apply str_length_ge2.
  - intros H100. rewrite Hz. destruct (Z.ltb_spec k 10); [lia|].
    by apply str_length_ge3.
Qed.

Lemma gen_unique_id_kth_call_witness :
  (gen_unique_id "HYENA" (gen_unique_ids (replicate 99 "hyena") ∅).2).1 = "Hy100".
Proof.
  refine (eq_trans (proj1 (gen_unique_id_kth_call (replicate 99 "hyena") "HYENA")) _).
  vm_compute. reflexivity.
Defined.

(** C2: parsing the sample line of the specification yields age 4, sex
    "female", species "hyena", season "spring", color "tan color", weight
    "70 pounds" and origin "from Friguia Park, Tunisia": the segments from
    the fifth on are joined again with ", ". *)
Theorem parse_sample_line :
  parse_line (PyStr.strip sample_line) =
    Ok (mkRecord 4 "female" "hyena" "spring" "tan color" "70 pounds"
          "from Friguia Park, Tunisia")
  ∧ parse_line (PyStr.strip (sample_line +:+ nl)) = parse_line (PyStr.strip sample_line)
  ∧ drop 4 (segments sample_line) = ["from Friguia Park"; "Tunisia"]
  ∧ PyStr.join ", " (drop 4 (segments sample_line)) = "from Friguia Park, Tunisia".
Proof. repeat split; vm_compute; reflexivity. Qed.



(** C4: names are handed out first-in-first-out per species key: the i-th
    animal of a key gets the i-th name of the key's pool, the placeholder
    once the pool is used up or when there is none, and the pool that is
    left is the initial one without the names handed out. *)
Theorem name_assignment_fifo (today : date) (lines : list string) (st : loop_state)
    (k : string) :
  (∀ i a, animals_for k (animals_of today lines st) !! i = Some a →
          a_name a = nth i (pool_of (l_names st) k) placeholder)
  ∧ (∀ i a, animals_for k (animals_of today lines st) !! i = Some a →
            (length (pool_of (l_names st) k) ≤ i)%nat → a_name a = placeholder)
  ∧ pool_of (l_names (process_lines today lines st).1.2) k =
      drop (length (animals_for k (animals_of today lines st))) (pool_of (l_names st) k).
Proof.
  destruct (names_fifo today lines st k) as [H1 H2].
  split; [done|]. split; [|done].
  intros i a Ha Hlen. rewrite (H1 i a Ha). by apply nth_overflow.
Qed.

Lemma name_assignment_fifo_witness :
  ∃ a, animals_for "hyena"
         (animals_of today_sample [sample_line; lion_line; sample_line; sample_line]
            (mkLoop ∅ {[ "hyena" := ["Shenzi"; "Banzai"] ]} [])) !! 2%nat = Some a
       ∧ a_name a = placeholder.
Proof.
  eexists. split; [vm_compute; reflexivity|].
  apply (proj1 (proj2 (name_assignment_fifo today_sample
                         [sample_line; lion_line; sample_line; sample_line]
                         (mkLoop ∅ {[ "hyena" := ["Shenzi"; "Banzai"] ]} []) "hyena")) 2%nat).
  - vm_compute. reflexivity.
  - vm_compute. lia.
Defined.







(** C8, as stated, fails on a short line whose first token is not a number:
    the conversion error comes first. *)
Lemma short_line_value_error :
  ¬ short_line_claim today_sample "abc" (mkLoop ∅ ∅ []).
Proof.
  intros [_ H].
  assert (process_line today_sample "abc" (mkLoop ∅ ∅ []) = Raise IndexError) as Hp.
  { apply H; vm_compute; [discriminate | lia]. }
  vm_compute in Hp. discriminate.
Qed.

(** C8, amended: a blank line is skipped and changes nothing; a non-blank
    line with fewer than four segments stops the loop with a conversion
    error when its first token is not an integer and with an index error
    otherwise; that error is not caught: the run ends with it, writes no
    file and prints nothing more. *)
Theorem short_line_aborts :
  (∀ today line st, blank line → process_line today line st = Ok (None, st))
  ∧ (∀ today line st,
       ¬ blank line → (length (segments line) < 4)%nat →
       process_line today line st = Raise (short_line_error line))
  ∧ (∀ input_file names_file output_file content w,
       w_fs w !! input_file = Some content →
       Exists (λ line, ¬ blank line ∧ (length (segments line) < 4)%nat)
              (readlines content) →
       ∃ e, (e = IndexError ∨ e = ValueError) ∧
            let r := process_zoo_data input_file names_file output_file w in
            r.1 = Some e ∧ w_fs r.2 = w_fs w ∧
            w_stdout r.2 = w_stdout (load_names names_file w).2).
Proof.
  split; [|split].
  - intros today line st Hb. by apply process_line_blank.
  - intros today line st Hb Hlen. apply process_line_raise; [done|].
    by apply parse_line_short.
  - intros input_file names_file output_file content w Hin Hbad.
    destruct (process_zoo_data_present input_file names_file output_file content w Hin)
      as (pool & _ & _ & Hrun).
    cbv zeta in Hrun.
    pose proof (process_lines_no_error (w_today w) (readlines content)
                  (mkLoop (w_counts w) pool [])) as Hok.
    pose proof (process_lines_error (w_today w) (readlines content)
                  (mkLoop (w_counts w) pool [])) as Herr.
    destruct ((process_lines (w_today w) (readlines content)
                 (mkLoop (w_counts w) pool [])).2) as [e|] eqn:E.
    + exists e. split; [by apply Herr|]. cbv zeta. rewrite Hrun. cbn [fst snd].
      destruct (load_names_total names_file w) as (pool' & -> & _). by cbn.
    + exfalso. destruct Hok as [Hok _]. specialize (Hok eq_refl).
      apply Exists_exists in Hbad as (line & Hl & Hb & Hlen).
      rewrite Forall_forall in Hok.
      by apply (short_line_not_well_formed line Hb Hlen), Hok.
Qed.

Lemma short_line_aborts_witness :
  process_line today_sample "4 year old female hyena, born in spring"
    (mkLoop ∅ ∅ []) = Raise IndexError.
Proof.
  refine (eq_trans (proj1 (proj2 short_line_aborts) today_sample
                      "4 year old female hyena, born in spring" (mkLoop ∅ ∅ []) _ _) _).
  - vm_compute. discriminate.
  - vm_compute. lia.
  - vm_compute. reflexivity.
Defined.

(** C9, as stated, fails on a first segment of two tokens: there is no
    token 3. *)
Lemma two_tokens_fault : ¬ token_count_claim two_token_line.
Proof.
  intros H. destruct H as (r & Hr & _).
  - vm_compute. discriminate.
  - vm_compute. discriminate.
  - vm_compute in Hr. discriminate.
Qed.

(** C9, amended: on a line of at least four segments whose first segment has
    at least four tokens, the first of them an integer, the parser does not
    fault whatever the number of tokens: it takes token 0 as age, token 3 as
    sex and the last token as species.  With fewer than four tokens it
    raises an error. *)
Theorem parse_line_token_count (line : string) :
  (∀ p0 p1 p2 p3 ps t0 t1 t2 t3 ts a,
     segments line = p0 :: p1 :: p2 :: p3 :: ps →
     tokens line = t0 :: t1 :: t2 :: t3 :: ts →
     PyInt.of_str t0 = Some a →
     ∃ r, parse_line (PyStr.strip line) = Ok r ∧
          age r = a ∧ sex r = t3 ∧ last (tokens line) = Some (species r) ∧
          color r = p2 ∧ weight r = p3 ∧ origin r = PyStr.join ", " ps)
  ∧ ((length (tokens line) < 4)%nat → ∃ e, parse_line (PyStr.strip line) = Raise e).
Proof.
  split; [|apply parse_line_few_tokens].
  intros p0 p1 p2 p3 ps t0 t1 t2 t3 ts a Hs Ht Ha.
  assert (PyStr.split_ws p0 = t0 :: t1 :: t2 :: t3 :: ts) as Ht'.
  { unfold tokens in Ht. by rewrite Hs in Ht. }
  rewrite (parse_line_long line p0 p1 p2 p3 ps t0 t1 t2 t3 ts a Hs Ht' Ha).
  eexists. split; [reflexivity|]. cbn [age sex species color weight origin].
  repeat split. rewrite Ht, !last_cons. by destruct (last ts).
Qed.

Lemma parse_line_token_count_witness :
  ∃ r, parse_line (PyStr.strip six_token_line) = Ok r ∧
       age r = 4 ∧ sex r = "female" ∧
       last (tokens six_token_line) = Some (species r) ∧
       color r = "tan color" ∧ weight r = "70 pounds" ∧
       origin r = PyStr.join ", " ["from Friguia Park"; "Tunisia"].
Proof.
  apply (proj1 (parse_line_token_count six_token_line)
           "4 year old female spotted hyena" "born in spring" "tan color" "70 pounds"
           ["from Friguia Park"; "Tunisia"] "4" "year" "old" "female"
           ["spotted"; "hyena"] 4);
    vm_compute; reflexivity.
Defined.

(** C10: species strings equal up to letter case share one counter, the
    one of their lower-cased form: a call with either casing returns the
    capitalised first two characters of the lower-cased species followed by
    the padded count, one more than that counter, and stores the new count
    under the lower-cased species; so two sequences of calls that are
    pairwise equal up to case return the same identifiers and leave the
    same counters, the i-th identifier being fixed by the lower-cased
    species and the number of earlier calls with it. *)
Theorem gen_unique_id_case_insensitive (l1 l2 : list string) (c : gmap string Z) :
  Forall2 same_species l1 l2 →
  gen_unique_ids l1 c = gen_unique_ids l2 c
  ∧ (∀ i s1 s2, l1 !! i = Some s1 → l2 !! i = Some s2 →
       let k := count_of c (PyStr.lower s1) +
                Z.of_nat (calls_for (PyStr.lower s1) (take i l1)) + 1 in
       let id := PyStr.capitalize (PyStr.slice_to 2 (PyStr.lower s1)) +:+
                 PyStr.zfill 2 (PyInt.str k) in
       (gen_unique_ids l1 c).1 !! i = Some id ∧ (gen_unique_ids l2 c).1 !! i = Some id)
  ∧ (∀ k, count_of (gen_unique_ids l1 c).2 k =
          count_of c k + Z.of_nat (calls_for k l1))
  ∧ (∀ s1 s2, same_species s1 s2 →
       gen_unique_id s1 c =
         (PyStr.capitalize (PyStr.slice_to 2 (PyStr.lower s2)) +:+
            PyStr.zfill 2 (PyInt.str (count_of c (PyStr.lower s2) + 1)),
          <[PyStr.lower s2 := count_of c (PyStr.lower s2) + 1]> c)).
Proof.
  intros H.
  assert (gen_unique_ids l1 c = gen_unique_ids l2 c) as Heq.
  { revert c. induction H as [|s1 s2 l1 l2 Hs _ IH]; intros c; [done|].
    rewrite !gen_unique_ids_cons, !gen_unique_id_eq. cbn [fst snd].
    rewrite (prefix_of_same_species s1 s2 Hs). unfold same_species in Hs. rewrite Hs.
    by rewrite IH. }
  split; [done|]. split; [|split].
  - intros i s1 s2 H1 H2 k id. rewrite <- Heq.
    split; by apply gen_unique_ids_lookup.
  - intros k. apply count_of_gen_unique_ids.
  - intros s1 s2 Hs. rewrite gen_unique_id_eq, (prefix_of_key s1).
    unfold same_species in Hs. by rewrite Hs.
Qed.

Lemma gen_unique_id_case_insensitive_witness :
  gen_unique_ids ["hyena"; "Hyena"; "HYENA"] ∅ = gen_unique_ids ["HYENA"; "hyena"; "hYENA"] ∅
  ∧ (gen_unique_ids ["hyena"; "Hyena"; "HYENA"] ∅).1 !! 2%nat = Some "Hy03"
  ∧ (gen_unique_ids ["HYENA"; "hyena"; "hYENA"] ∅).1 !! 2%nat = Some "Hy03"
  ∧ count_of (gen_unique_ids ["hyena"; "Hyena"; "HYENA"] ∅).2 "hyena" = 3.
Proof.
  destruct (gen_unique_id_case_insensitive
              ["hyena"; "Hyena"; "HYENA"] ["HYENA"; "hyena"; "hYENA"] ∅)
    as (H1 & H2 & H3 & _).
  { repeat constructor; vm_compute; reflexivity. }
  destruct (H2 2%nat "HYENA" "hYENA" eq_refl eq_refl) as [Ha Hb].
  split; [exact H1|]. split; [|split].
  - rewrite Ha. vm_compute. reflexivity.
  - rewrite Hb. vm_compute. reflexivity.
  - rewrite H3. vm_compute. reflexivity.
Defined.

(** * Further properties of the code *)

(** X1: the loop of [load_names] never raises on the lines of a file that
    was read: a header line always has a first word and the current section
    always has an entry, so neither [line.split()[0]] nor
    [names_dict[current_species]] can fail; for a file that is there the
    call returns the dictionary the loop built and prints nothing, and for
    a missing file it prints one message and returns the empty pool. *)
Theorem load_names_loop_never_raises (lines : list string) :
  (∃ st, load_names_lines lines (mkNames ∅ "") = Ok st ∧ names_ok st)
  ∧ (∀ file_path content w,
       w_fs w !! file_path = Some content →
       ∃ st, load_names_lines (readlines content) (mkNames ∅ "") = Ok st ∧
             load_names file_path w = (Ok (names_dict st), w))
  ∧ (∀ file_path w,
       w_fs w !! file_path = None →
       load_names file_path w = (Ok ∅, print (names_error file_path) w)).
Proof.
  assert (names_ok (mkNames ∅ "")) as H0 by (by left).
  split; [by apply load_names_lines_ok|]. split.
  - intros file_path content w Hf.
    destruct (load_names_lines_ok (readlines content) (mkNames ∅ "") H0) as (st & Hst & _).
    exists st. split; [done|]. unfold load_names, open_read. by rewrite Hf, Hst.
  - intros file_path w Hf. by apply load_names_missing.
Qed.

Lemma load_names_loop_never_raises_witness :
  ∃ st, load_names_lines (readlines sample_names) (mkNames ∅ "") = Ok st ∧
        load_names names_path sample_world = (Ok (names_dict st), sample_world).
Proof.
  apply (proj1 (proj2 (load_names_loop_never_raises [])) names_path sample_names
           sample_world).
  vm_compute. reflexivity.
Defined.

(** X2: a header line followed by lines that are not headers gives the
    header's key the names of those lines, stripped, in order, blank lines
    being skipped without closing the section; any names the key had before
    are dropped and the other keys are untouched. *)
Theorem load_names_section (header : string) (body : list string) (st : names_state) :
  is_header header = true →
  Forall (λ line, is_header line = false) body →
  load_names_lines (header :: body) st =
    Ok (mkNames (<[header_key header := section_names body]> (names_dict st))
                (header_key header)).
Proof.
  intros Hh Hb. cbn [load_names_lines].
  rewrite load_names_line_header by done. cbn [mbind result_bind].
  rewrite (load_names_lines_body body _ (header_key header) []);
    [ by rewrite insert_insert_eq
    | done
    | by apply header_key_nonempty
    | by rewrite lookup_insert_eq ].
Qed.

Lemma load_names_section_witness :
  load_names_lines ["Hyena  Names:"; ""; " Shenzi , Banzai"; "Ed,"]
                   (mkNames {[ "hyena" := ["Old"] ]} "lion") =
    Ok (mkNames {[ "hyena" := ["Shenzi"; "Banzai"; "Ed"; ""] ]} "hyena").
Proof.
  refine (eq_trans (load_names_section "Hyena  Names:" [""; " Shenzi , Banzai"; "Ed,"]
                      (mkNames {[ "hyena" := ["Old"] ]} "lion") _ _) _).
  - vm_compute. reflexivity.
  - repeat (apply Forall_cons; split; [vm_compute; reflexivity|]). apply Forall_nil_2.
  - vm_compute. reflexivity.
Defined.

(** X3: a names file without any header line gives an empty pool, silently:
    every line is ignored. *)
Theorem load_names_no_header (file_path content : string) (w : world) :
  w_fs w !! file_path = Some content →
  Forall (λ line, is_header line = false) (readlines content) →
  load_names file_path w = (Ok ∅, w).
Proof.
  intros Hf Hh. unfold load_names, open_read. rewrite Hf.
  by rewrite load_names_lines_no_header.
Qed.

Lemma load_names_no_header_witness :
  load_names input_path sample_world = (Ok ∅, sample_world).
Proof.
  apply (load_names_no_header input_path sample_input sample_world).
  - vm_compute. reflexivity.
  - replace (readlines sample_input)
      with [lion_line +:+ nl; sample_line +:+ nl; zebra_line +:+ nl]
      by (vm_compute; reflexivity).
    repeat (apply Forall_cons; split; [vm_compute; reflexivity|]). apply Forall_nil_2.
Defined.

(** X4: the identifier of the i-th animal of a species key in a run is the
    capitalised first two characters of the key followed by the zero-padded
    count, which goes on from the counter the run started with; at the end
    the counter has grown by the number of animals of the key. *)
Theorem identifiers_along_run (today : date) (lines : list string) (st : loop_state)
    (k : string) :
  (∀ i a, animals_for k (animals_of today lines st) !! i = Some a →
          a_unique_id a =
            PyStr.capitalize (PyStr.slice_to 2 k) +:+
            PyStr.zfill 2 (PyInt.str (count_of (l_counts st) k + Z.of_nat i + 1)))
  ∧ count_of (l_counts (process_lines today lines st).1.2) k =
      count_of (l_counts st) k +
      Z.of_nat (length (animals_for k (animals_of today lines st))).
Proof. apply ids_loop. Qed.

Lemma identifiers_along_run_witness :
  ∃ a, animals_for "hyena"
         (animals_of today_sample [sample_line; lion_line; sample_line]
            (mkLoop {[ "hyena" := 98 ]} ∅ [])) !! 1%nat = Some a
       ∧ a_unique_id a = "Hy100".
Proof.
  eexists. split; [vm_compute; reflexivity|].
  refine (eq_trans (proj1 (identifiers_along_run today_sample
                             [sample_line; lion_line; sample_line]
                             (mkLoop {[ "hyena" := 98 ]} ∅ []) "hyena") 1%nat _ _) _).
  - vm_compute. reflexivity.
  - vm_compute. reflexivity.
Defined.

(** X5: within one species key the identifiers of a run are pairwise
    distinct, provided the counter of the key starts non-negative. *)
Theorem identifiers_distinct_within_species (today : date) (lines : list string)
    (st : loop_state) (k : string) (i j : nat) (a b : animal) :
  0 ≤ count_of (l_counts st) k →
  animals_for k (animals_of today lines st) !! i = Some a →
  animals_for k (animals_of today lines st) !! j = Some b →
  i ≠ j → a_unique_id a ≠ a_unique_id b.
Proof.
  intros Hc Ha Hb Hij Heq.
  destruct (ids_loop today lines st k) as [Hid _].
  rewrite (Hid i a Ha), (Hid j b Hb) in Heq.
  apply (inj (String.app _)) in Heq.
  apply zfill_str_inj in Heq; lia.
Qed.

Lemma identifiers_distinct_within_species_witness :
  ∃ a b,
    animals_for "hyena" (animals_of today_sample [sample_line; sample_line]
                           (mkLoop ∅ ∅ [])) !! 0%nat = Some a ∧
    animals_for "hyena" (animals_of today_sample [sample_line; sample_line]
                           (mkLoop ∅ ∅ [])) !! 1%nat = Some b ∧
    a_unique_id a ≠ a_unique_id b.
Proof.
  eexists _, _. split; [vm_compute; reflexivity|]. split; [vm_compute; reflexivity|].
  apply (identifiers_distinct_within_species today_sample [sample_line; sample_line]
           (mkLoop ∅ ∅ []) "hyena" 0 1).
  - vm_compute. discriminate.
  - vm_compute. reflexivity.
  - vm_compute. reflexivity.
  - lia.
Defined.

(** X6: identifiers are not unique across species: two species whose first
    two characters agree up to letter case and whose counters are equal get
    the same identifier. *)
Theorem identifiers_collide_across_species (s1 s2 : string) (c : gmap string Z) :
  same_species (PyStr.slice_to 2 s1) (PyStr.slice_to 2 s2) →
  count_of c (PyStr.lower s1) = count_of c (PyStr.lower s2) →
  (gen_unique_id s1 c).1 = (gen_unique_id s2 c).1.
Proof.
  unfold same_species. intros Hp Hc. rewrite !gen_unique_id_eq. cbn [fst].
  rewrite Hc. f_equal.
  rewrite <- (capitalize_lower (PyStr.slice_to 2 s1)), Hp. apply capitalize_lower.
Qed.

Lemma identifiers_collide_across_species_witness :
  (gen_unique_id "lion" ∅).1 = (gen_unique_id "Lizard" ∅).1.
Proof.
  apply identifiers_collide_across_species; vm_compute; reflexivity.
Defined.

(** X7: a run changes no file other than the output file, and changes none
    when it ends with an exception; a [FileNotFoundError] never escapes: the
    one of an output file that cannot be found is caught like the one of a
    missing input file, so that after all the lines were processed the run
    returns normally, prints the message about the input file and writes
    nothing. *)
Theorem process_zoo_data_files (input_file names_file output_file : string) (w : world) :
  let r := process_zoo_data input_file names_file output_file w in
  (∀ p, p ≠ output_file → w_fs r.2 !! p = w_fs w !! p)
  ∧ (∀ e, r.1 = Some e → w_fs r.2 = w_fs w)
  ∧ (∀ p, r.1 ≠ Some (FileNotFoundError p))
  ∧ (∀ content p,
       w_fs w !! input_file = Some content →
       Forall well_formed (readlines content) →
       open_write output_file w = Raise (FileNotFoundError p) →
       r.1 = None ∧ w_fs r.2 = w_fs w ∧
       w_stdout r.2 = w_stdout (load_names names_file w).2 ++ [input_error]).
Proof.
  intros r. unfold r. destruct (load_names_world names_file w) as (Hfs & _ & _).
  destruct (w_fs w !! input_file) as [content|] eqn:Hin.
  - destruct (process_zoo_data_present input_file names_file output_file content w Hin)
      as (pool & _ & _ & Hrun).
    cbv zeta in Hrun. rewrite Hrun.
    pose proof (process_lines_error (w_today w) (readlines content)
                  (mkLoop (w_counts w) pool [])) as Herr.
    pose proof (process_lines_no_error (w_today w) (readlines content)
                  (mkLoop (w_counts w) pool [])) as Hok.
    destruct ((process_lines (w_today w) (readlines content)
                 (mkLoop (w_counts w) pool [])).2) as [e|]; cbn [fst snd].
    + split; [|split; [|split]].
      * intros p _. cbn. by rewrite Hfs.
      * intros e' _. by cbn.
      * intros p [= ->]. by destruct (Herr _ eq_refl).
      * intros content' p [= <-] Hwf _. by apply Hok in Hwf.
    + destruct (open_write output_file w) as [[]|e] eqn:Hout.
      * cbn [fst snd]. split; [|split; [|split]]; try done.
        intros p Hp. cbn. by rewrite lookup_insert_ne, Hfs.
      * assert ((∃ q, e = FileNotFoundError q) ∨ (∀ q, e ≠ FileNotFoundError q)) as [[q ->]|He].
        { destruct e; by eauto. }
        -- cbn [fst snd]. split; [|split; [|split]]; try done.
           intros p _. cbn. by rewrite Hfs.
        -- assert (match e with
                   | FileNotFoundError _ =>
                       (None, print input_error
                                (set_counts (l_counts (process_lines (w_today w)
                                   (readlines content) (mkLoop (w_counts w) pool [])).1.2)
                                   (load_names names_file w).2))
                   | _ => (Some e, set_counts (l_counts (process_lines (w_today w)
                                   (readlines content) (mkLoop (w_counts w) pool [])).1.2)
                                   (load_names names_file w).2)
                   end = (Some e, set_counts (l_counts (process_lines (w_today w)
                                   (readlines content) (mkLoop (w_counts w) pool [])).1.2)
                                   (load_names names_file w).2)) as ->.
           { destruct e; try done. by destruct (He path). }
           cbn [fst snd]. split; [|split; [|split]].
           ++ intros p _. cbn. by rewrite Hfs.
           ++ intros e' _. by cbn.
           ++ intros p [= ->]. by apply (He p).
           ++ intros content' p _ _ [= ->]. by destruct (He p).
  - rewrite process_zoo_data_missing_input by done. cbn [fst snd].
    split; [|split; [|split]]; try done.
    intros p _. cbn. by rewrite Hfs.
Qed.

Lemma process_zoo_data_files_witness :
  let r := process_zoo_data input_path names_path lost_output blank_world in
  r.1 = None ∧ w_fs r.2 = w_fs blank_world ∧
  w_stdout r.2 = [names_error names_path; input_error].
Proof.
  destruct (proj2 (proj2 (proj2 (process_zoo_data_files input_path names_path lost_output
                                   blank_world)))
              (nl +:+ "  " +:+ nl) lost_output) as (H1 & H2 & H3).
  - vm_compute. reflexivity.
  - replace (readlines (nl +:+ "  " +:+ nl)) with [nl; "  " +:+ nl]
      by (vm_compute; reflexivity).
    repeat (apply Forall_cons; split; [left; vm_compute; reflexivity|]).
    apply Forall_nil_2.
  - vm_compute. reflexivity.
  - cbv zeta. rewrite H1, H2, H3. repeat split; vm_compute; reflexivity.
Defined.

(** X8: an input file with blank lines only (an empty file too) is not an
    error and moves no counter: when the output file can be opened the run
    returns normally and writes it empty; when opening it raises
    [FileNotFoundError] the run returns normally, writes nothing and prints
    the message about the input file; when opening it raises anything else
    that exception escapes and nothing is written. *)
Theorem process_zoo_data_blank_input (input_file names_file output_file content : string)
    (w : world) :
  w_fs w !! input_file = Some content →
  Forall blank (readlines content) →
  let r := process_zoo_data input_file names_file output_file w in
  w_counts r.2 = w_counts w ∧
  match open_write output_file w with
  | Ok _ =>
      r.1 = None ∧ w_fs r.2 = <[output_file := ""]> (w_fs w) ∧
      w_stdout r.2 = w_stdout (load_names names_file w).2
  | Raise (FileNotFoundError _) =>
      r.1 = None ∧ w_fs r.2 = w_fs w ∧
      w_stdout r.2 = w_stdout (load_names names_file w).2 ++ [input_error]
  | Raise e =>
      r.1 = Some e ∧ w_fs r.2 = w_fs w ∧
      w_stdout r.2 = w_stdout (load_names names_file w).2
  end.
Proof.
  intros Hin Hb r. unfold r.
  destruct (load_names_world names_file w) as (Hfs & Hc & _).
  destruct (process_zoo_data_present input_file names_file output_file content w Hin)
    as (pool & _ & _ & Hrun).
  cbv zeta in Hrun. rewrite process_lines_blank in Hrun by done.
  rewrite Hrun. cbn [fst snd l_counts].
  destruct (open_write output_file w) as [[]|[]]; cbn; by rewrite ?Hfs, ?Hc.
Qed.

Lemma process_zoo_data_blank_input_witness :
  let r := process_zoo_data input_path names_path output_path
             (mkWorld {[ input_path := nl +:+ "  " +:+ nl ]} [] ∅ today_sample ∅) in
  w_counts r.2 = ∅ ∧ r.1 = None ∧
  w_fs r.2 = {[ output_path := ""; input_path := nl +:+ "  " +:+ nl ]} ∧
  w_stdout r.2 = [names_error names_path].
Proof.
  pose proof (process_zoo_data_blank_input input_path names_path output_path
                (nl +:+ "  " +:+ nl)
                (mkWorld {[ input_path := nl +:+ "  " +:+ nl ]} [] ∅ today_sample ∅))
    as H.
  destruct H as (H1 & H2 & H3 & H4).
  - vm_compute. reflexivity.
  - replace (readlines (nl +:+ "  " +:+ nl)) with [nl; "  " +:+ nl]
      by (vm_compute; reflexivity).
    repeat (apply Forall_cons; split; [vm_compute; reflexivity|]). apply Forall_nil_2.
  - cbv zeta. rewrite H1, H2, H3, H4. repeat split; vm_compute; reflexivity.
Defined.

(** X9: the counters outlive a run: after a run on an existing input file,
    whether it ends well or not, the counter of every species key has grown
    by the number of animals of that key the run processed. *)
Theorem process_zoo_data_counters (input_file names_file output_file content : string)
    (w : world) (k : string) :
  w_fs w !! input_file = Some content →
  ∃ pool,
    (load_names names_file w).1 = Ok pool ∧
    count_of (w_counts (process_zoo_data input_file names_file output_file w).2) k =
      count_of (w_counts w) k +
      Z.of_nat (length (animals_for k
        (animals_of (w_today w) (readlines content) (mkLoop (w_counts w) pool [])))).
Proof.
  intros Hin.
  destruct (process_zoo_data_present input_file names_file output_file content w Hin)
    as (pool & Hl & _ & Hrun).
  exists pool. split; [done|]. cbv zeta in Hrun. rewrite Hrun.
  destruct (ids_loop (w_today w) (readlines content) (mkLoop (w_counts w) pool []) k)
    as [_ Hc].
  destruct ((process_lines (w_today w) (readlines content)
               (mkLoop (w_counts w) pool [])).2); [done|].
  by destruct (open_write output_file w) as [[]|[]].
Qed.

Lemma process_zoo_data_counters_witness :
  count_of (w_counts (process_zoo_data input_path names_path output_path sample_world).2)
           "hyena" = 1.
Proof.
  destruct (process_zoo_data_counters input_path names_path output_path sample_input
              sample_world "hyena") as (pool & Hl & H); [vm_compute; reflexivity|].
  rewrite H. vm_compute in Hl. injection Hl as <-. vm_compute. reflexivity.
Defined.



(** X11: the parser accepts a line exactly when it has at least four
    segments and its first segment has at least four tokens, the first of
    which converts to an integer. *)
Theorem parse_line_accepts (line : string) :
  (∃ r, parse_line (PyStr.strip line) = Ok r) ↔
  (4 ≤ length (segments line))%nat ∧ (4 ≤ length (tokens line))%nat ∧
  ∃ t0 a, head (tokens line) = Some t0 ∧ PyInt.of_str t0 = Some a.
Proof.
  split.
  - intros [r Hr].
    destruct (decide (length (segments line) < 4)%nat) as [Hs|Hs].
    { rewrite parse_line_short in Hr by done. done. }
    destruct (decide (length (tokens line) < 4)%nat) as [Ht|Ht].
    { destruct (parse_line_few_tokens line Ht) as [e He]. congruence. }
    split; [lia|]. split; [lia|].
    rewrite parse_line_segments in Hr. unfold tokens in *.
    destruct (segments line) as [|p0 ps]; [simpl in Hs; lia|].
    change (default "" (head (p0 :: ps))) with p0 in *.
    cbn [getitem lookup list_lookup mbind result_bind] in Hr.
    destruct (PyStr.split_ws p0) as [|t0 ts]; [simpl in Ht; lia|].
    cbn [getitem lookup list_lookup mbind result_bind py_int] in Hr.
    destruct (PyInt.of_str t0) as [a|] eqn:Ea; [|done]. by exists t0, a.
  - intros (Hs & Ht & t0 & a & Hh & Ha).
    destruct (segments line) as [|p0 [|p1 [|p2 [|p3 ps]]]] eqn:Es; simpl in Hs; try lia.
    destruct (tokens line) as [|t0' [|t1 [|t2 [|t3 ts]]]] eqn:Et; simpl in Ht; try lia.
    injection Hh as ->.
    assert (PyStr.split_ws p0 = t0 :: t1 :: t2 :: t3 :: ts) as Ht'.
    { unfold tokens in Et. by rewrite Es in Et. }
    rewrite (parse_line_long line p0 p1 p2 p3 ps t0 t1 t2 t3 ts a Es Ht' Ha).
    by eauto.
Qed.



(** X13: from empty habitats the loop builds one entry per species key, in
    the order the keys are first met and without repetition; the entry of a
    key holds the output lines of its animals in input order, and a key
    that did not occur has no entry. *)
Theorem habitats_of_run (today : date) (lines : list string)
    (counts : gmap string Z) (names : gmap string (list string)) :
  let l := animals_of today lines (mkLoop counts names []) in
  let h := l_habitats (process_lines today lines (mkLoop counts names [])).1.2 in
  h.*1 = encounter_order (a_key <$> l)
  ∧ NoDup h.*1
  ∧ ∀ k, hab_lookup k h =
         if decide (k ∈ a_key <$> l) then Some (output_line <$> animals_for k l) else None.
Proof.
  intros l h.
  assert (h = group l) as ->.
  { unfold h, l. by rewrite (process_lines_habitats today lines _ []). }
  assert ((group l).*1 = encounter_order (a_key <$> l)) as Hkeys.
  { unfold group. rewrite <- list_fmap_compose. apply list_fmap_id. }
  split; [done|]. split.
  - rewrite Hkeys. apply NoDup_encounter_order.
  - intros k. unfold group. rewrite hab_lookup_fmap.
    destruct (decide (k ∈ encounter_order (a_key <$> l))) as [Hin|Hin];
      rewrite elem_of_encounter_order in Hin.
    + by rewrite decide_True.
    + by rewrite decide_False.
Qed.
